(** * EyeOnWater: polling, reconciliation and entity availability

    A shallow embedding of the Home Assistant integration
    [custom_components/eyeonwater]: the coordinator ([coordinator.py]),
    the config-entry setup ([__init__.py]) and the entities ([sensor.py],
    [binary_sensor.py]).

    Python objects are records, mutation is explicit state passing in a
    small state-and-exception monad, and everything the integration calls
    but does not own (the utility API, the recorder) is an argument of the
    function that calls it.

    A name is looked up as Python does, in the namespace of the module
    that uses it.  The exception classes that [__init__.py] takes from
    [.eow] are matched by name with the ones the client raises. *)

From stdpp Require Import base list strings sorting gmap.
From Stdlib Require Import ZArith Lia.

Local Open Scope Z_scope.

(** ** Data model *)

(** [datetime.datetime] values are compared only with [>]; an instant is an
    integer (microseconds since the epoch). *)
Definition datetime := Z.

(** [pyonwater.DataPoint]: the code in scope copies [reading] and never
    computes on it. *)
Record DataPoint := mkDataPoint { dt : datetime; reading : Z }.

(** [pyonwater] flags of a meter reading, the attributes that
    [binary_sensor.FLAG_SENSORS] names. *)
Record Flags := mkFlags {
  leak : bool;
  empty_pipe : bool;
  tamper : bool;
  cover_removed : bool;
  reverse_flow : bool;
  low_battery : bool;
  battery_charging : bool
}.

Record Reading := mkReading {
  model : string;
  customer_name : string;
  hardware_version : string;
  firmware_version : string;
  flags : Flags
}.

Record EndpointTemperature := mkEndpointTemperature { seven_day_min : Z }.

Record Sensors := mkSensors { endpoint_temperature : option EndpointTemperature }.

Record MeterInfo := mkMeterInfo {
  info_reading : Reading;
  sensors : option Sensors
}.

(** [pyonwater.Meter], with the attributes the integration reads.  The
    field [meter_reading] is the Python attribute [meter.reading]. *)
Record Meter := mkMeter {
  meter_id : string;
  meter_uuid : string;
  native_unit_of_measurement : string;
  meter_info : MeterInfo;
  meter_reading : DataPoint;
  last_historical_data : list DataPoint
}.

Definition set_meter_info (i : MeterInfo) (r : DataPoint) (m : Meter) : Meter :=
  {| meter_id := meter_id m; meter_uuid := meter_uuid m;
     native_unit_of_measurement := native_unit_of_measurement m;
     meter_info := i; meter_reading := r;
     last_historical_data := last_historical_data m |}.

Definition set_last_historical_data (d : list DataPoint) (m : Meter) : Meter :=
  {| meter_id := meter_id m; meter_uuid := meter_uuid m;
     native_unit_of_measurement := native_unit_of_measurement m;
     meter_info := meter_info m; meter_reading := meter_reading m;
     last_historical_data := d |}.

(** ** Exceptions *)

Inductive Exception :=
  | EyeOnWaterAPIError
  | EyeOnWaterAuthError
  | TimeoutError            (* asyncio.TimeoutError *)
  | ConfigEntryNotReady
  | UpdateFailed
  | NoDataFound
  | IndexError
  | AttributeError
  | OtherError (name : string).

Global Instance Exception_eq_dec : EqDecision Exception.
Proof. solve_decision. Defined.

(** The tuple [(EyeOnWaterAPIError, EyeOnWaterAuthError)] of the [except]
    clauses in [coordinator.py]. *)
Definition api_or_auth_error (e : Exception) : bool :=
  match e with
  | EyeOnWaterAPIError | EyeOnWaterAuthError => true
  | _ => false
  end.

(** ** Python statements: state and exceptions

    A statement run on a store [S] leaves a store behind and either
    returns a value or raises.  A raise keeps the mutations made before
    it. *)
Definition Py (S A : Type) : Type := S → S * (Exception + A).

Global Instance Py_ret {S} : MRet (Py S) := λ A a s, (s, inr a).

Global Instance Py_bind {S} : MBind (Py S) := λ A B f m s,
  match m s with
  | (s', inr a) => f a s'
  | (s', inl e) => (s', inl e)
  end.

Definition raise {S A} (e : Exception) : Py S A := λ s, (s, inl e).

Definition get {S} : Py S S := λ s, (s, inr s).

Definition modify {S} (f : S → S) : Py S () := λ s, (f s, inr ()).

(** [try: body except <handles> as error: handler error]. *)
Definition try_except {S A} (body : Py S A) (handles : Exception → bool)
    (handler : Exception → Py S A) : Py S A := λ s,
  match body s with
  | (s', inl e) => if handles e then handler e s' else (s', inl e)
  | r => r
  end.

(** A callee that raises [e] or returns [a], with no effect on the store. *)
Definition lift_result {S A} (r : Exception + A) : Py S A := λ s, (s, r).

Definition pass {S} : Py S () := mret ().

(** ** statistic_helper.filter_newer_data *)

(** Modelled from the spec: [statistic_helper.py] is not among the sources;
    [filter_newer_data] follows section 4.1: with no cutoff the input comes
    back unchanged, otherwise the points with timestamp strictly greater
    than the cutoff, in input order. *)
Definition filter_newer_data (data : list DataPoint)
    (last_imported_time : option datetime) : list DataPoint :=
  match last_imported_time with
  | None => data
  | Some cutoff => filter (λ p, cutoff < dt p) data
  end.

(** A point lies after a watermark: any point when nothing was imported
    yet. *)
Definition newer_than (w : option datetime) (p : DataPoint) : Prop :=
  match w with
  | None => True
  | Some cutoff => cutoff < dt p
  end.

Global Instance newer_than_dec w p : Decision (newer_than w p).
Proof. destruct w; simpl; apply _. Defined.

(** Run a statement on one component of a pair of stores. *)
Definition on_fst {X H A} (m : Py X A) : Py (X * H) A := λ '(x, h),
  let '(x', r) := m x in ((x', h), r).

Definition on_snd {X H A} (m : Py H A) : Py (X * H) A := λ '(x, h),
  let '(h', r) := m h in ((x, h'), r).

(** ** Collaborators *)

(** [statistic_helper.py] is not among the sources.  The two functions of
    it that build a submission are an interface here: what they compute is
    not constrained by anything below. *)
Class StatisticHelper := {
  StatisticData : Type;
  StatisticMetaData : Type;
  convert_statistic_data : list DataPoint → list StatisticData;
  get_statistic_metadata : Meter → Exception + StatisticMetaData
}.

(** The utility's API as one polling cycle sees it, behind
    [pyonwater.Client]: what each call answers, keyed by the meter's uuid. *)
Record Client := mkClient {
  authenticate : option Exception;
  fetch_meters : Exception + list Meter;
  meter_info_of : string → Exception + MeterInfo * DataPoint;
  historical_data_of : string → Z → Exception + list DataPoint
}.

(** [pyonwater.Meter.read_meter_info]: on success the meter object is
    refreshed in place (entities read [meter.meter_info] and
    [meter.reading] from the same object afterwards; the value returned to
    [read_meters] is dropped). *)
Definition read_meter_info (client : Client) : Py Meter () :=
  m ← get;
  match meter_info_of client (meter_uuid m) with
  | inl e => raise e
  | inr (info, r) => modify (set_meter_info info r)
  end.

(** [pyonwater.Meter.read_historical_data]: on success returns the
    fetched points; the library, which is outside the repository, is taken
    to store them in [meter.last_historical_data], where [sensor.py] reads
    the history back. *)
Definition read_historical_data (client : Client) (days_to_load : Z)
    : Py Meter (list DataPoint) :=
  m ← get;
  match historical_data_of client (meter_uuid m) days_to_load with
  | inl e => raise e
  | inr data => modify (set_last_historical_data data);; mret data
  end.

(** [homeassistant.helpers.update_coordinator.DataUpdateCoordinator], as
    far as the entities look at it. *)
Record DataUpdateCoordinator := mkCoordinator { last_update_success : bool }.

Section Recorder.
Context `{StatisticHelper}.

(** The part of [hass] the integration writes to: the calls of
    [async_import_statistics], oldest first. *)
Record HomeAssistant := mkHass {
  import_calls : list (StatisticMetaData * list StatisticData)
}.

(** What a submission raises, if anything. *)
Definition Recorder : Type :=
  StatisticMetaData → list StatisticData → option Exception.

(** [homeassistant.components.recorder.statistics.async_import_statistics]:
    the call is made, and may raise. *)
Definition async_import_statistics (recorder : Recorder)
    (metadata : StatisticMetaData) (statistics : list StatisticData)
    : Py HomeAssistant () :=
  modify (λ hass, mkHass (import_calls hass ++ [(metadata, statistics)]));;
  match recorder metadata statistics with
  | Some e => raise e
  | None => pass
  end.
End Recorder.

Arguments HomeAssistant {_}.
Arguments mkHass {_} _.
Arguments Recorder {_}.

(** ** sensor.py *)

Module EyeOnWaterStatistic.
Section Statistic.
Context `{StatisticHelper}.

(** The mutable attributes of the entity.  Naming attributes ([_attr_*])
    are set once in [__init__] and play no part below. *)
Record t := mk {
  _last_imported_time : option datetime;
  _state : option DataPoint;
  _available : bool;
  _last_historical_data : list DataPoint
}.

Definition __init__ (last_imported_time : option datetime) : t :=
  {| _last_imported_time := last_imported_time;
     _state := None;
     _available := false;
     _last_historical_data := [] |}.

Definition set__last_imported_time (v : option datetime) (self : t) : t :=
  mk v (_state self) (_available self) (_last_historical_data self).
Definition set__state (v : option DataPoint) (self : t) : t :=
  mk (_last_imported_time self) v (_available self) (_last_historical_data self).
Definition set__available (v : bool) (self : t) : t :=
  mk (_last_imported_time self) (_state self) v (_last_historical_data self).
Definition set__last_historical_data (v : list DataPoint) (self : t) : t :=
  mk (_last_imported_time self) (_state self) (_available self) v.

Definition available (self : t) : bool := _available self.

Definition native_value (self : t) : option Z := reading <$> _state self.

(** The entity writes its state to the state machine; nothing below
    reads it back. *)
Definition async_write_ha_state : Py (t * HomeAssistant) () := pass.

(** [self.meter] is the coordinator's meter object; [meter] is its
    current value. *)
Definition import_historical_data (recorder : Recorder) (meter : Meter)
    : Py (t * HomeAssistant) () :=
  self ← on_fst get;
  match _last_historical_data self with
  | [] => pass
  | _ :: _ =>
      let statistics := convert_statistic_data (_last_historical_data self) in
      metadata ← lift_result (get_statistic_metadata meter);
      on_snd (async_import_statistics recorder metadata statistics)
  end.

Definition _state_update (coordinator : DataUpdateCoordinator)
    (recorder : Recorder) (meter : Meter) : Py (t * HomeAssistant) () :=
  on_fst (modify (set__available (last_update_success coordinator)));;
  self ← on_fst get;
  (if _available self then
     on_fst (modify (set__state (Some (meter_reading meter))));;
     match last_historical_data meter with
     | [] => raise NoDataFound
     | _ :: _ =>
         on_fst (modify (λ self, set__last_historical_data
           (filter_newer_data (last_historical_data meter)
                              (_last_imported_time self)) self));;
         self ← on_fst get;
         match _last_historical_data self with
         | [] => pass
         | _ :: _ =>
             import_historical_data recorder meter;;
             self ← on_fst get;
             match last (_last_historical_data self) with
             | Some p =>
                 on_fst (modify (set__last_imported_time (Some (dt p))))
             | None => raise IndexError
             end
         end
     end
   else pass);;
  async_write_ha_state.
End Statistic.
End EyeOnWaterStatistic.

Module EyeOnWaterTempSensor.
(** The entity has no mutable attribute of its own. *)
Definition native_value (meter : Meter) : option Z :=
  match sensors (meter_info meter) with
  | Some s =>
      match endpoint_temperature s with
      | Some temp => Some (seven_day_min temp)
      | None => None
      end
  | None => None
  end.
End EyeOnWaterTempSensor.

Module EyeOnWaterSensor.
Record t := mk {
  _state : option DataPoint;
  _available : bool
}.

Definition __init__ : t := {| _state := None; _available := false |}.

Definition available (self : t) : bool := _available self.

Definition native_value (self : t) : option Z := reading <$> _state self.

Definition extra_state_attributes (meter : Meter) : Reading :=
  info_reading (meter_info meter).

Definition async_write_ha_state : Py t () := pass.

Definition _state_update (coordinator : DataUpdateCoordinator)
    (meter : Meter) : Py t () :=
  modify (λ self, mk (_state self) (last_update_success coordinator));;
  self ← get;
  (if _available self then
     modify (λ self, mk (Some (meter_reading meter)) (_available self))
   else pass);;
  async_write_ha_state.
End EyeOnWaterSensor.

(** The two members of Home Assistant's [CoordinatorEntity] that
    [EyeOnWaterTempSensor] and [EyeOnWaterBinarySensor] inherit without
    overriding: availability is the coordinator's [last_update_success]. *)
Module CoordinatorEntity.
Definition available (coordinator : DataUpdateCoordinator) : bool :=
  last_update_success coordinator.

Definition _handle_coordinator_update {S} : Py S () := pass.
End CoordinatorEntity.

(** ** binary_sensor.py *)

Record Description := mkDescription {
  key : string;
  translation_key : option string
}.

(** [FLAG_SENSORS]; the device class of a description is presentation
    only and is left out. *)
Definition FLAG_SENSORS : list Description := [
  mkDescription "leak" (Some "leak");
  mkDescription "empty_pipe" (Some "emptypipe");
  mkDescription "tamper" (Some "tamper");
  mkDescription "cover_removed" (Some "coverremoved");
  mkDescription "reverse_flow" (Some "reverseflow");
  mkDescription "low_battery" None;
  mkDescription "battery_charging" None
]%string.

(** [getattr(flags, name)]. *)
Definition getattr_flags (f : Flags) (name : string) : Exception + bool :=
  if decide (name = "leak"%string) then inr (leak f)
  else if decide (name = "empty_pipe"%string) then inr (empty_pipe f)
  else if decide (name = "tamper"%string) then inr (tamper f)
  else if decide (name = "cover_removed"%string) then inr (cover_removed f)
  else if decide (name = "reverse_flow"%string) then inr (reverse_flow f)
  else if decide (name = "low_battery"%string) then inr (low_battery f)
  else if decide (name = "battery_charging"%string) then inr (battery_charging f)
  else inl AttributeError.

Module EyeOnWaterBinarySensor.
Record t := mk {
  entity_description : Description;
  _attr_is_on : bool
}.

Definition __init__ (description : Description) : t :=
  {| entity_description := description; _attr_is_on := false |}.

Definition get_flag (meter : Meter) : Py t bool :=
  self ← get;
  lift_result (getattr_flags (flags (info_reading (meter_info meter)))
                             (key (entity_description self))).

Definition async_write_ha_state : Py t () := pass.

Definition _handle_coordinator_update (meter : Meter) : Py t () :=
  flag ← get_flag meter;
  modify (λ self, mk (entity_description self) flag);;
  async_write_ha_state.
End EyeOnWaterBinarySensor.

(** ** The entities of a config entry *)

Section Entities.
Context `{StatisticHelper}.

Inductive Entity :=
  | Statistic (self : EyeOnWaterStatistic.t)
  | Sensor (self : EyeOnWaterSensor.t)
  | TempSensor
  | BinarySensor (self : EyeOnWaterBinarySensor.t).

(** [sensor.async_setup_entry], the entities of one meter;
    [last_imported_time] is what [get_last_imported_time(hass, meter)]
    answered. *)
Definition sensor_entities (last_imported_time : option datetime)
    (meter : Meter) : list Entity :=
  [ Statistic (EyeOnWaterStatistic.__init__ last_imported_time);
    Sensor EyeOnWaterSensor.__init__ ] ++
  match sensors (meter_info meter) with
  | Some s =>
      match endpoint_temperature s with
      | Some _ => [TempSensor]
      | None => []
      end
  | None => []
  end.

Definition sensor_async_setup_entry
    (get_last_imported_time : Meter → option datetime)
    (meters : list Meter) : list (nat * Entity) :=
  mjoin (imap (λ i meter,
    (λ e, (i, e)) <$> sensor_entities (get_last_imported_time meter) meter)
    meters).

(** [binary_sensor.async_setup_entry]. *)
Definition binary_sensor_async_setup_entry (meters : list Meter)
    : list (nat * Entity) :=
  mjoin (imap (λ i (_ : Meter),
    (λ d, (i, BinarySensor (EyeOnWaterBinarySensor.__init__ d)))
      <$> FLAG_SENSORS) meters).

(** The [available] property, by class. *)
Definition entity_available (coordinator : DataUpdateCoordinator)
    (e : Entity) : bool :=
  match e with
  | Statistic self => EyeOnWaterStatistic.available self
  | Sensor self => EyeOnWaterSensor.available self
  | TempSensor | BinarySensor _ => CoordinatorEntity.available coordinator
  end.

(** The listener each class registers with the coordinator, run on the
    entity and on [hass]. *)
Definition entity_listener (coordinator : DataUpdateCoordinator)
    (recorder : Recorder) (meter : Meter)
    : Py (Entity * HomeAssistant) () := λ '(e, hass),
  match e with
  | Statistic self =>
      let '((self', hass'), r) :=
        EyeOnWaterStatistic._state_update coordinator recorder meter
          (self, hass) in
      ((Statistic self', hass'), r)
  | Sensor self =>
      let '(self', r) :=
        EyeOnWaterSensor._state_update coordinator meter self in
      ((Sensor self', hass), r)
  | TempSensor => CoordinatorEntity._handle_coordinator_update (e, hass)
  | BinarySensor self =>
      let '(self', r) :=
        EyeOnWaterBinarySensor._handle_coordinator_update meter self in
      ((BinarySensor self', hass), r)
  end.
End Entities.

(** ** coordinator.py *)

Module EyeOnWaterData.
Section Data.
Context `{StatisticHelper}.

(** The mutable part of the object: [self.meters], and [self.hass]. *)
Definition t : Type := list Meter * HomeAssistant.

Definition __init__ (hass : HomeAssistant) : t := ([], hass).

(** Run a statement on the [i]-th meter object of [self.meters]. *)
Definition for_meter {A} (i : nat) (body : Py (Meter * HomeAssistant) A)
    : Py t A := λ '(meters, hass),
  match meters !! i with
  | Some meter =>
      let '((meter', hass'), r) := body (meter, hass) in
      ((<[i:=meter']> meters, hass'), r)
  | None => ((meters, hass), inl IndexError)
  end.

Definition setup (client : Client) : Py t () :=
  try_except
    (meters ← lift_result (fetch_meters client);
     modify (λ '(_, hass), (meters, hass)))
    api_or_auth_error
    (λ _, raise UpdateFailed).

Inductive Task :=
  | ReadMeterInfo (i : nat)
  | ReadHistoricalData (i : nat).

(** The list [tasks] of [read_meters]. *)
Definition tasks (meters : list Meter) : list Task :=
  (ReadMeterInfo <$> seq 0 (length meters)) ++
  (ReadHistoricalData <$> seq 0 (length meters)).

Definition run_task (client : Client) (days_to_load : Z) (task : Task)
    : Py t () :=
  match task with
  | ReadMeterInfo i => for_meter i (on_fst (read_meter_info client))
  | ReadHistoricalData i =>
      for_meter i (on_fst (read_historical_data client days_to_load));; pass
  end.

(** The fetches of a [gather] that finish after its first failure and
    before the caller runs again: each writes to its meter as usual; an
    exception of theirs is retrieved and dropped. *)
Fixpoint settle (client : Client) (days_to_load : Z) (late : list Task)
    : Py t () :=
  match late with
  | [] => pass
  | task :: rest =>
      try_except (run_task client days_to_load task) (λ _, true) (λ _, pass);;
      settle client days_to_load rest
  end.

(** [await asyncio.gather] of the tasks.  They wait on the network
    interleaved and each writes attributes of its own meter only.
    [completion] lists the fetches that have finished when [read_meters]
    runs again, in the order in which they finished: all of them when none
    failed; when one failed, the ones before it, the failing one, and the
    ones that finished in the same turns of the event loop, before the
    exception reached [read_meters].  The first exception is the one
    raised.  The fetches still waiting are not cancelled and are not in
    the list. *)
Fixpoint gather (client : Client) (days_to_load : Z)
    (completion : list Task) : Py t () :=
  match completion with
  | [] => pass
  | task :: rest =>
      try_except (run_task client days_to_load task) (λ _, true)
        (λ e, settle client days_to_load rest;; raise e);;
      gather client days_to_load rest
  end.

Definition read_meters (client : Client) (completion : list Task)
    (days_to_load : Z) : Py t (list Meter) :=
  try_except
    (gather client days_to_load completion)
    api_or_auth_error
    (λ _, raise UpdateFailed);;
  self ← get;
  mret self.1.

(** The body of the loop of [import_historical_data], on one meter.
    [recorder] gives what the submission statement raises, the [await] of
    the call's result included. *)
Definition import_meter (client : Client) (recorder : Recorder) (days : Z)
    : Py (Meter * HomeAssistant) () :=
  try_except
    (data ← on_fst (read_historical_data client days);
     let statistics := convert_statistic_data data in
     meter ← on_fst get;
     metadata ← lift_result (get_statistic_metadata meter);
     on_snd (async_import_statistics recorder metadata statistics))
    api_or_auth_error
    (λ _, raise UpdateFailed).

Fixpoint for_each (indices : list nat) (body : nat → Py t ()) : Py t () :=
  match indices with
  | [] => pass
  | i :: rest => body i;; for_each rest body
  end.

Definition import_historical_data (client : Client) (recorder : Recorder)
    (days : Z) : Py t () :=
  self ← get;
  for_each (seq 0 (length self.1))
           (λ i, for_meter i (import_meter client recorder days)).
End Data.
End EyeOnWaterData.

(** ** __init__.py *)

Section Init.
Context `{StatisticHelper}.

(** [hass.data[DOMAIN][entry.entry_id]]. *)
Record Entry := mkEntry {
  DATA_COORDINATOR : DataUpdateCoordinator;
  DATA_SMART_METER : list Meter
}.

(** [async_update_data], the coordinator's update method: [read_meters]
    with its default [days_to_load]. *)
Definition async_update_data (client : Client)
    (completion : list EyeOnWaterData.Task)
    : Py EyeOnWaterData.t (list Meter) :=
  EyeOnWaterData.read_meters client completion 3.

(** The names bound in the namespace of [__init__.py]: what it imports
    and what it defines. *)
Definition module_names : list string := [
  "asyncio"; "logging"; "ConfigEntry"; "Platform"; "HomeAssistant";
  "ConfigEntryNotReady"; "aiohttp_client"; "debounce";
  "DataUpdateCoordinator"; "UpdateFailed"; "create_account_from_config";
  "DATA_COORDINATOR"; "DATA_SMART_METER"; "DEBOUNCE_COOLDOWN"; "DOMAIN";
  "SCAN_INTERVAL"; "Account"; "Client"; "EyeOnWaterAPIError";
  "EyeOnWaterAuthError"; "_LOGGER"; "PLATFORMS"; "async_setup_entry";
  "async_unload_entry"
]%string.

(** [NameError], raised by the use of a name that is not bound. *)
Definition NameError : Exception := OtherError "NameError".

(** The use of a global name in a function of [__init__.py]. *)
Definition load_global {S} (name : string) : Py S () :=
  if decide (name ∈ module_names) then pass else raise NameError.

(** [async_setup_entry], on the entry's slot of [hass.data] and on
    [hass].  Line 31 calls [EyeOnWaterData], a name that [__init__.py]
    neither imports nor defines (and with three arguments, where the class
    of [coordinator.py] takes [hass] and [account]).  A new
    [DataUpdateCoordinator] has [last_update_success] set; the refresh
    task created at line 64 runs after the function has returned. *)
Definition async_setup_entry (client : Client)
    : Py (option Entry * HomeAssistant) bool :=
  load_global "EyeOnWaterData";;
  ((λ '(data, hass),
    let eye_on_water_data := EyeOnWaterData.__init__ hass in
    match authenticate client with
    | Some e =>
        if decide (e = EyeOnWaterAuthError) then ((data, hass), inr false)
        else if decide (e = TimeoutError)
        then ((data, hass), inl ConfigEntryNotReady)
        else ((data, hass), inl e)
    | None =>
        match EyeOnWaterData.setup client eye_on_water_data with
        | ((meters, hass'), inl e) => ((data, hass'), inl e)
        | ((meters, hass'), inr _) =>
            let coordinator := mkCoordinator true in
            ((Some (mkEntry coordinator meters), hass'), inr true)
        end
    end) : Py (option Entry * HomeAssistant) bool).
End Init.

(** ** Vocabulary of the properties *)

(** Order of watermarks: no import yet comes before any timestamp. *)
Definition watermark_lt (a b : option datetime) : Prop :=
  match a, b with
  | None, Some _ => True
  | Some x, Some y => x < y
  | _, None => False
  end.

Definition watermark_le (a b : option datetime) : Prop :=
  a = b ∨ watermark_lt a b.

(** What the [except] clauses of [coordinator.py] let out for an
    exception [e] of their body. *)
Definition reraised (e : Exception) : Exception :=
  if api_or_auth_error e then UpdateFailed else e.

(** A history ordered by timestamp, as the data model of the spec has
    it. *)
Definition ordered (data : list DataPoint) : Prop :=
  StronglySorted (λ p q, dt p ≤ dt q) data.

Section Lifetime.
Context `{StatisticHelper}.

(** [hass] after one more submission, of [batch] under [metadata]. *)
Definition submitted (hass : HomeAssistant) (metadata : StatisticMetaData)
    (batch : list DataPoint) : HomeAssistant :=
  mkHass (import_calls hass ++ [(metadata, convert_statistic_data batch)]).

(** One coordinator update as a statistic entity meets it: the
    coordinator's flag, the recorder's behaviour and the value of the
    meter object at that moment. *)
Record Update := mkUpdate {
  update_coordinator : DataUpdateCoordinator;
  update_recorder : Recorder;
  update_meter : Meter
}.

(** The successive updates of a running process.  An exception leaves
    the listener; the entity stays as it was at the raise. *)
Fixpoint updates (us : list Update)
    (s : EyeOnWaterStatistic.t * HomeAssistant)
    : EyeOnWaterStatistic.t * HomeAssistant :=
  match us with
  | [] => s
  | u :: rest =>
      updates rest
        (EyeOnWaterStatistic._state_update (update_coordinator u)
           (update_recorder u) (update_meter u) s).1
  end.

(** What the API answers to a task of [read_meters], looked up by the
    uuid of the task's meter. *)
Definition task_error (client : Client) (days_to_load : Z)
    (meters : list Meter) (task : EyeOnWaterData.Task) : option Exception :=
  match task with
  | EyeOnWaterData.ReadMeterInfo i =>
      match meters !! i with
      | Some m =>
          match meter_info_of client (meter_uuid m) with
          | inl e => Some e
          | inr _ => None
          end
      | None => Some IndexError
      end
  | EyeOnWaterData.ReadHistoricalData i =>
      match meters !! i with
      | Some m =>
          match historical_data_of client (meter_uuid m) days_to_load with
          | inl e => Some e
          | inr _ => None
          end
      | None => Some IndexError
      end
  end.

Definition task_meter (task : EyeOnWaterData.Task) : nat :=
  match task with
  | EyeOnWaterData.ReadMeterInfo i | EyeOnWaterData.ReadHistoricalData i => i
  end.
End Lifetime.

(** ** Sample values *)

Module Sample.
Local Open Scope string_scope.

(** A helper that submits the points as they are, under the meter's
    uuid. *)
Definition helper : StatisticHelper := {|
  StatisticData := DataPoint;
  StatisticMetaData := string;
  convert_statistic_data := λ data, data;
  get_statistic_metadata := λ meter, inr (meter_uuid meter)
|}.

Definition accepting : @Recorder helper := λ _ _, None.

Definition no_flags : Flags := mkFlags false false false false false false false.
Definition leaking : Flags := mkFlags true false false false false false false.

Definition info (f : Flags) : MeterInfo :=
  mkMeterInfo (mkReading "M1" "Utility" "hw1" "fw1" f) None.

Definition meter (uuid : string) (history : list DataPoint) : Meter :=
  mkMeter uuid uuid "GAL" (info no_flags) (mkDataPoint 0 100) history.

Definition day1_0900 : DataPoint := mkDataPoint 109 10.
Definition day2_1200 : DataPoint := mkDataPoint 212 20.
Definition day3_0900 : DataPoint := mkDataPoint 309 30.
Definition day3_1800 : DataPoint := mkDataPoint 318 40.

Definition history : list DataPoint :=
  [day1_0900; day2_1200; day3_0900; day3_1800].

(** [hass] with the given submissions made. *)
Definition imported (calls : list (string * list DataPoint))
    : @HomeAssistant helper := @mkHass helper calls.

Definition hass : @HomeAssistant helper := imported [].

(** The API answers for meter "a" and fails for meter "b". *)
Definition client_b_down : Client := {|
  authenticate := None;
  fetch_meters := inr [meter "a" []; meter "b" []];
  meter_info_of := λ uuid,
    if decide (uuid = "b") then inl EyeOnWaterAPIError
    else inr (info leaking, mkDataPoint 318 140);
  historical_data_of := λ uuid _,
    if decide (uuid = "b") then inl EyeOnWaterAPIError else inr history
|}.

(** The API fails for meter "a" and answers for meter "b". *)
Definition client_a_down : Client := {|
  authenticate := None;
  fetch_meters := inr [meter "a" []; meter "b" []];
  meter_info_of := λ uuid,
    if decide (uuid = "a") then inl EyeOnWaterAPIError
    else inr (info leaking, mkDataPoint 318 140);
  historical_data_of := λ uuid _,
    if decide (uuid = "a") then inl EyeOnWaterAPIError else inr history
|}.

Definition client_up : Client := {|
  authenticate := None;
  fetch_meters := inr [meter "a" []; meter "b" []];
  meter_info_of := λ _, inr (info no_flags, mkDataPoint 318 140);
  historical_data_of := λ _ _, inr history
|}.


Definition client_timeout : Client := {|
  authenticate := Some TimeoutError;
  fetch_meters := inr [];
  meter_info_of := λ _, inl EyeOnWaterAPIError;
  historical_data_of := λ _ _, inl EyeOnWaterAPIError
|}.
End Sample.

(** ** Three sentences of the spec as they stand

    Stated on the sample helper where they speak of the points inside a
    submission: its rows are the points themselves. *)


(** "The reconciler must never submit a point at or before the current
    watermark", read on the bulk import of one meter whose statistic entity
    is [self]. *)
Definition bulk_import_respects_watermark : Prop :=
  ∀ client recorder days (meter : Meter) (self : EyeOnWaterStatistic.t)
    (w : datetime),
    EyeOnWaterStatistic._last_imported_time self = Some w →
    ∀ call,
      call ∈ import_calls
        (EyeOnWaterData.import_historical_data (H := Sample.helper)
           client recorder days ([meter], Sample.hass)).1.2 →
      Forall (λ p, w < dt p) call.2.


(** ** [hass.data] as the dictionaries it is *)

(** [KeyError], raised by a subscript or a [pop] on a missing key. *)
Definition KeyError : Exception := OtherError "KeyError".

Global Instance Task_eq_dec : EqDecision EyeOnWaterData.Task.
Proof. solve_decision. Defined.

Global Instance Description_eq_dec : EqDecision Description.
Proof. solve_decision. Defined.

Section HassData.
Context `{StatisticHelper}.

(** The entry of [entry_id] in [hass.data]: [None] for [data] when the key
    [DOMAIN] is absent. *)
Definition entry_of (entry_id : string) (data : option (gmap string Entry))
    : option Entry :=
  match data with
  | Some domain => domain !! entry_id
  | None => None
  end.

(** [async_unload_entry]; [unload_ok] is what
    [hass.config_entries.async_unload_platforms] answered. *)
Definition async_unload_entry (entry_id : string) (unload_ok : bool)
    : Py (option (gmap string Entry)) bool := λ data,
  if unload_ok then
    match data with
    | Some domain =>
        match domain !! entry_id with
        | Some _ => (Some (delete entry_id domain), inr unload_ok)
        | None => (data, inl KeyError)
        end
    | None => (data, inl KeyError)
    end
  else (data, inr unload_ok).

(** The first two lines of [sensor.async_setup_entry] and of
    [binary_sensor.async_setup_entry]: the subscripts into [hass.data]. *)
Definition entry_meters (entry_id : string)
    (data : option (gmap string Entry)) : Exception + list Meter :=
  match entry_of entry_id data with
  | Some entry => inr (DATA_SMART_METER entry)
  | None => inl KeyError
  end.

Definition sensor_platform (entry_id : string)
    (get_last_imported_time : Meter → option datetime)
    (data : option (gmap string Entry)) : Exception + list (nat * Entity) :=
  match entry_meters entry_id data with
  | inr meters => inr (sensor_async_setup_entry get_last_imported_time meters)
  | inl e => inl e
  end.

Definition binary_sensor_platform (entry_id : string)
    (data : option (gmap string Entry)) : Exception + list (nat * Entity) :=
  match entry_meters entry_id data with
  | inr meters => inr (binary_sensor_async_setup_entry meters)
  | inl e => inl e
  end.
End HassData.

(** ** More vocabulary *)

(** What a cycle cannot change of a meter. *)
Definition meter_identity (m : Meter) : string * string * string :=
  (meter_id m, meter_uuid m, native_unit_of_measurement m).

(** What a bulk import cannot change of a meter. *)
Definition meter_current (m : Meter)
    : string * string * string * MeterInfo * DataPoint :=
  (meter_identity m, meter_info m, meter_reading m).

(** A meter after the fetches of [completion] that concern the meter at
    index [j], each taken as the API answers it. *)
Definition refreshed (client : Client) (days_to_load : Z)
    (completion : list EyeOnWaterData.Task) (j : nat) (m : Meter) : Meter :=
  let m1 :=
    if decide (EyeOnWaterData.ReadMeterInfo j ∈ completion) then
      match meter_info_of client (meter_uuid m) with
      | inr (info, r) => set_meter_info info r m
      | inl _ => m
      end
    else m in
  if decide (EyeOnWaterData.ReadHistoricalData j ∈ completion) then
    match historical_data_of client (meter_uuid m) days_to_load with
    | inr data => set_last_historical_data data m1
    | inl _ => m1
    end
  else m1.

(** ** More sample values *)

Module Outage.
Local Open Scope string_scope.

(** The API answers for meter "a" and times out on the info of "b". *)
Definition client_slow : Client := {|
  authenticate := None;
  fetch_meters := inr [Sample.meter "a" []; Sample.meter "b" []];
  meter_info_of := λ uuid,
    if decide (uuid = "b") then inl TimeoutError
    else inr (Sample.info Sample.leaking, mkDataPoint 318 140);
  historical_data_of := λ _ _, inr Sample.history
|}.

(** A statistics store that is down. *)
Definition rejecting : @Recorder Sample.helper :=
  λ _ _, Some (OtherError "OperationalError").

Definition two_meters : list Meter :=
  [Sample.meter "a" []; Sample.meter "b" []].

End Outage.

(** "Applying reconciliation twice with no new fetched data between calls
    must not change the watermark and must not produce a second submission
    call", for the two updates of one statistic entity on the same meter
    data, whatever the statistics store does at each. *)
Definition second_reconciliation_is_idle : Prop :=
  ∀ (H : StatisticHelper) coordinator (recorder recorder' : Recorder) meter
    (self : EyeOnWaterStatistic.t) (hass : HomeAssistant),
    let first :=
      EyeOnWaterStatistic._state_update coordinator recorder meter
        (self, hass) in
    let second :=
      EyeOnWaterStatistic._state_update coordinator recorder' meter first.1 in
    EyeOnWaterStatistic._last_imported_time second.1.1 =
      EyeOnWaterStatistic._last_imported_time first.1.1 ∧
    second.1.2 = first.1.2.

(** * Properties *)

Ltac py_unfold :=
  unfold mbind, mret, Py_bind, Py_ret, pass, raise, get, modify, lift_result,
    on_fst, on_snd, try_except in *.

Ltac py_simpl := repeat (progress (py_unfold; simpl in *)).

(** ** The historical data filter *)

Lemma filter_newer_data_elem_of data w p :
  p ∈ filter_newer_data data w ↔ p ∈ data ∧ newer_than w p.
Proof.
  destruct w as [cutoff|]; simpl.
  - rewrite list_elem_of_filter. tauto.
  - tauto.
Qed.

Lemma filter_newer_data_sublist data w :
  filter_newer_data data w `sublist_of` data.
Proof. destruct w; simpl; [apply sublist_filter | reflexivity]. Qed.

Lemma filter_newer_data_maximal data cutoff kept :
  kept `sublist_of` data →
  Forall (λ p, cutoff < dt p) kept →
  kept `sublist_of` filter_newer_data data (Some cutoff).
Proof.
  simpl. induction 1 as [|x l1 l2 Hsub IH|x l1 l2 Hsub IH]; intros Hall.
  - constructor.
  - apply Forall_cons in Hall as [Hx Hall].
    rewrite filter_cons_True by done. constructor. by apply IH.
  - rewrite filter_cons. case_decide; [constructor|]; by apply IH.
Qed.

(** C1.  [filter_newer_data] returns its input unchanged when there is no
    cutoff, returns the empty list on the empty list, and with a cutoff
    returns the subsequence of the input made of exactly the points with
    timestamp strictly greater than the cutoff: it is a subsequence of the
    input (order kept), its members are the members of the input after the
    cutoff, and every subsequence of the input lying after the cutoff is a
    subsequence of it. *)
Theorem filter_newer_data_spec (data : list DataPoint) (w : option datetime) :
  filter_newer_data data None = data ∧
  filter_newer_data [] w = [] ∧
  ∀ cutoff,
    let newer := filter_newer_data data (Some cutoff) in
    newer `sublist_of` data ∧
    (∀ p, p ∈ newer ↔ p ∈ data ∧ cutoff < dt p) ∧
    (∀ kept, kept `sublist_of` data → Forall (λ p, cutoff < dt p) kept →
             kept `sublist_of` newer).
Proof.
  split; [done|]. split; [by destruct w|].
  intros cutoff newer. subst newer. split; [apply filter_newer_data_sublist|].
  split.
  - intros p. apply (filter_newer_data_elem_of data (Some cutoff)).
  - apply filter_newer_data_maximal.
Qed.

(** The scenario of the spec: watermark at day 2 12:00. *)
Example filter_newer_data_scenario :
  filter_newer_data Sample.history (Some 212) =
  [Sample.day3_0900; Sample.day3_1800].
Proof. reflexivity. Qed.

(** ** The statistic entity *)

Section StatisticProperties.
Context `{StatisticHelper}.
Import EyeOnWaterStatistic.

Implicit Types (self : EyeOnWaterStatistic.t) (hass : HomeAssistant).

(** [_state_update], path by path. *)
Lemma _state_update_cases coordinator recorder meter self hass :
  let w := _last_imported_time self in
  let fetched := last_historical_data meter in
  let newer := filter_newer_data fetched w in
  let seen := Some (meter_reading meter) in
  _state_update coordinator recorder meter (self, hass) =
    if last_update_success coordinator then
      match fetched with
      | [] =>
          ((mk w seen true (_last_historical_data self), hass),
           inl NoDataFound)
      | _ :: _ =>
          match last newer with
          | None => ((mk w seen true newer, hass), inr ())
          | Some p =>
              match get_statistic_metadata meter with
              | inl e => ((mk w seen true newer, hass), inl e)
              | inr metadata =>
                  match recorder metadata (convert_statistic_data newer) with
                  | Some e =>
                      ((mk w seen true newer, submitted hass metadata newer),
                       inl e)
                  | None =>
                      ((mk (Some (dt p)) seen true newer,
                        submitted hass metadata newer), inr ())
                  end
              end
          end
      end
    else ((mk w (_state self) false (_last_historical_data self), hass),
          inr ()).
Proof.
  intros w fetched newer seen. subst w fetched newer seen.
  unfold _state_update, import_historical_data, async_write_ha_state,
    async_import_statistics, submitted.
  destruct self as [w st av old]. py_simpl.
  destruct (last_update_success coordinator); py_simpl; [|reflexivity].
  destruct (last_historical_data meter) as [|d ds] eqn:Hfetched;
    [reflexivity|].
  py_simpl.
  destruct (filter_newer_data (d :: ds) w) as [|x xs] eqn:Hnewer;
    [reflexivity|].
  py_simpl.
  destruct (last (x :: xs)) as [p|] eqn:Hlast;
    [|by apply last_None in Hlast].
  destruct (get_statistic_metadata meter) as [e|metadata]; py_simpl;
    [reflexivity|].
  destruct (recorder metadata _); py_simpl; rewrite ?Hlast; reflexivity.
Qed.

Lemma submitted_neq hass metadata batch :
  submitted hass metadata batch ≠ hass.
Proof.
  destruct hass as [calls]. unfold submitted. simpl. intros [= Heq].
  apply (f_equal length) in Heq. rewrite length_app in Heq. simpl in Heq.
  lia.
Qed.

Lemma last_newer fetched w p :
  last (filter_newer_data fetched w) = Some p →
  p ∈ fetched ∧ watermark_lt w (Some (dt p)).
Proof.
  intros Hp%last_Some_elem_of%filter_newer_data_elem_of.
  destruct Hp as [? Hw]. split; [done|]. by destruct w.
Qed.

Lemma watermark_lt_neq a b : watermark_lt a b → b ≠ a.
Proof. destruct a, b; simpl; try done. intros ? [= ->]. lia. Qed.

Lemma watermark_le_trans a b c :
  watermark_le a b → watermark_le b c → watermark_le a c.
Proof.
  intros [->|Hab] [->|Hbc]; [by left|by right|by right|right].
  destruct a, b, c; simpl in *; try done. lia.
Qed.

(** One update never moves the watermark back. *)
Lemma _state_update_watermark_le coordinator recorder meter s :
  watermark_le (_last_imported_time s.1)
    (_last_imported_time
       (_state_update coordinator recorder meter s).1.1).
Proof.
  destruct s as [self hass]. rewrite _state_update_cases. simpl.
  destruct (last_update_success coordinator); [|by left].
  destruct (last_historical_data meter) as [|d ds]; [by left|].
  destruct (last _) as [p|] eqn:Hlast; [|by left].
  destruct (get_statistic_metadata meter) as [e|metadata]; [by left|].
  destruct (recorder metadata _); [by left|].
  right. simpl. by apply last_newer in Hlast as [_ ?].
Qed.

(** C6.  After a successful cycle, an empty fetched history makes the
    reconciliation raise [NoDataFound]; nothing is submitted and the
    watermark of the meter stays as it was. *)
Theorem empty_history_raises_no_data coordinator recorder meter self hass :
  last_update_success coordinator = true →
  last_historical_data meter = [] →
  ∃ self',
    _state_update coordinator recorder meter (self, hass) =
      ((self', hass), inl NoDataFound) ∧
    _last_imported_time self' = _last_imported_time self.
Proof.
  intros Hok Hempty. rewrite _state_update_cases, Hok, Hempty.
  eexists. split; reflexivity.
Qed.

(** C4.  The watermark changes in an update if and only if the filtered
    sequence is not empty and its submission was made and returned; when
    it changes, the new watermark is the timestamp of the last point of
    the filtered sequence and lies strictly after the old one; and over
    any sequence of updates of a running process the watermark never
    decreases. *)
Theorem watermark_advances coordinator recorder meter self hass :
  let w := _last_imported_time self in
  let newer := filter_newer_data (last_historical_data meter) w in
  let result := _state_update coordinator recorder meter (self, hass) in
  let w' := _last_imported_time result.1.1 in
  (w' ≠ w ↔
     newer ≠ [] ∧
     ∃ metadata,
       result.1.2 = submitted hass metadata newer ∧ result.2 = inr ()) ∧
  (w' ≠ w → w' = dt <$> last newer ∧ watermark_lt w w') ∧
  (∀ us s, watermark_le (_last_imported_time s.1)
                        (_last_imported_time (updates us s).1)).
Proof.
  intros w newer result w'. subst result w'.
  rewrite _state_update_cases. fold w. fold newer. split; [|split].
  - destruct (last_update_success coordinator); simpl.
    2: { split; [done|]. intros [_ (md & Hs & _)].
         symmetry in Hs. by apply submitted_neq in Hs. }
    destruct (last_historical_data meter) as [|d ds] eqn:Hfetched; simpl.
    { split; [done|]. intros [_ (md & Hs & _)].
      symmetry in Hs. by apply submitted_neq in Hs. }
    destruct (last newer) as [p|] eqn:Hlast; simpl.
    2: { split; [done|]. intros [_ (md & Hs & _)].
         symmetry in Hs. by apply submitted_neq in Hs. }
    destruct (get_statistic_metadata meter) as [e|metadata]; simpl.
    { split; [done|]. intros [_ (md & Hs & _)].
      symmetry in Hs. by apply submitted_neq in Hs. }
    destruct (recorder metadata _); simpl.
    { split; [done|]. by intros [_ (md & _ & ?)]. }
    split.
    + intros _. split; [|by exists metadata].
      intros Hnil. by rewrite Hnil in Hlast.
    + intros _. apply watermark_lt_neq. by apply last_newer in Hlast as [_ ?].
  - destruct (last_update_success coordinator); simpl; [|done].
    destruct (last_historical_data meter) as [|d ds] eqn:Hfetched; [done|].
    destruct (last newer) as [p|] eqn:Hlast; simpl; [|done].
    destruct (get_statistic_metadata meter) as [e|metadata]; [done|].
    destruct (recorder metadata _); simpl; [done|].
    intros _. split; [done|]. by apply last_newer in Hlast as [_ ?].
  - clear. induction us as [|u us IH]; intros s; simpl; [by left|].
    eapply watermark_le_trans; [|apply IH].
    apply _state_update_watermark_le.
Qed.

(** In an ordered history, nothing lies after the last point that passed
    the filter. *)
Lemma nothing_newer_than_last fetched w p :
  ordered fetched →
  last (filter_newer_data fetched w) = Some p →
  filter_newer_data fetched (Some (dt p)) = [].
Proof.
  intros Hsorted Hlast. simpl.
  assert (∀ q, q ∈ fetched → dt q ≤ dt p) as Hmax.
  { destruct w as [cutoff|]; simpl in Hlast.
    - pose proof Hlast as Hp%last_Some_elem_of%list_elem_of_filter.
      apply last_filter_Some in Hlast as (l1 & l2 & -> & Hl2).
      intros q [Hq|[->|Hq]%elem_of_cons]%elem_of_app.
      + apply (StronglySorted_app_1_elem_of _ l1 (p :: l2) q p Hsorted);
          [done|by left].
      + lia.
      + rewrite Forall_forall in Hl2. specialize (Hl2 q Hq). simpl in Hl2.
        lia.
    - apply last_Some in Hlast as [l' ->].
      intros q [Hq|Hq%list_elem_of_singleton]%elem_of_app.
      + apply (StronglySorted_app_1_elem_of _ l' [p] q p Hsorted);
          [done|by left].
      + subst q. lia. }
  destruct (filter _ fetched) as [|x xs] eqn:Hfilter; [done|].
  assert (x ∈ filter (λ q, dt p < dt q) fetched) as Hx
    by (rewrite Hfilter; by left).
  apply list_elem_of_filter in Hx as [Hx Hin]. apply Hmax in Hin. lia.
Qed.

(** C9.  When a reconciliation has completed on a history ordered by
    timestamp, a second one on the same fetched data completes too,
    makes no call to the statistics store and leaves the watermark where
    the first one put it. *)
Theorem second_reconciliation_imports_nothing
    coordinator recorder recorder' meter self hass self1 hass1 :
  ordered (last_historical_data meter) →
  _state_update coordinator recorder meter (self, hass) =
    ((self1, hass1), inr ()) →
  ∃ self2,
    _state_update coordinator recorder' meter (self1, hass1) =
      ((self2, hass1), inr ()) ∧
    _last_imported_time self2 = _last_imported_time self1.
Proof.
  intros Hsorted. rewrite !_state_update_cases.
  destruct (last_update_success coordinator).
  2: { intros [= <- <-]. eexists. split; reflexivity. }
  destruct (last_historical_data meter) as [|d ds] eqn:Hfetched; [done|].
  destruct (last (filter_newer_data _ (_last_imported_time self)))
    as [p|] eqn:Hlast.
  - destruct (get_statistic_metadata meter) as [e|metadata]; [done|].
    destruct (recorder metadata _); [done|].
    intros [= <- <-]. cbn [_last_imported_time].
    rewrite (nothing_newer_than_last _ _ _ Hsorted Hlast).
    eexists. split; reflexivity.
  - intros [= <- <-]. cbn [_last_imported_time]. rewrite Hlast.
    eexists. split; reflexivity.
Qed.
End StatisticProperties.

(** ** The coordinator *)

Section CoordinatorProperties.
Context `{StatisticHelper}.
Import EyeOnWaterData.

Implicit Types (meters : list Meter) (hass : HomeAssistant).

Lemma task_error_uuid client days meters meters' task :
  meter_uuid <$> meters' = meter_uuid <$> meters →
  task_error client days meters' task = task_error client days meters task.
Proof.
  intros Huuid.
  assert (∀ i, meter_uuid <$> meters' !! i = meter_uuid <$> meters !! i)
    as Hi by (intros i; by rewrite <-!list_lookup_fmap, Huuid).
  destruct task as [i|i]; simpl; specialize (Hi i);
    destruct (meters' !! i), (meters !! i); simplify_eq/=; try done;
    by rewrite Hi.
Qed.

(** A fetch that fails leaves the store as it is. *)
Lemma run_task_error client days task meters hass e :
  task_error client days meters task = Some e →
  run_task client days task (meters, hass) = ((meters, hass), inl e).
Proof.
  destruct task as [i|i]; simpl; unfold for_meter, read_meter_info,
    read_historical_data; py_simpl;
    destruct (meters !! i) as [m|] eqn:Hm; simpl; try by intros [= ->].
  - destruct (meter_info_of client (meter_uuid m)) as [e'|[]]; [|done].
    intros [= ->]. by rewrite list_insert_id.
  - destruct (historical_data_of client (meter_uuid m) days) as [e'|];
      [|done].
    intros [= ->]. by rewrite list_insert_id.
Qed.

(** A fetch that succeeds refreshes its own meter in place and nothing
    else. *)
Lemma run_task_ok client days task meters hass :
  task_error client days meters task = None →
  ∃ meters',
    run_task client days task (meters, hass) = ((meters', hass), inr ()) ∧
    meter_uuid <$> meters' = meter_uuid <$> meters ∧
    ∀ j, j ≠ task_meter task → meters' !! j = meters !! j.
Proof.
  destruct task as [i|i]; simpl; unfold for_meter, read_meter_info,
    read_historical_data; py_simpl;
    destruct (meters !! i) as [m|] eqn:Hm; simpl; try done.
  - destruct (meter_info_of client (meter_uuid m)) as [e'|[info r]];
      [done|]. intros _. eexists. split; [reflexivity|]. split.
    + rewrite list_fmap_insert. simpl. apply list_insert_id.
      by rewrite list_lookup_fmap, Hm.
    + intros j Hj. by rewrite list_lookup_insert_ne.
  - destruct (historical_data_of client (meter_uuid m) days) as [e'|data];
      [done|]. intros _. eexists. split; [reflexivity|]. split.
    + rewrite list_fmap_insert. simpl. apply list_insert_id.
      by rewrite list_lookup_fmap, Hm.
    + intros j Hj. by rewrite list_lookup_insert_ne.
Qed.

Lemma refreshed_identity client days completion j m :
  meter_identity (refreshed client days completion j m) = meter_identity m.
Proof.
  unfold refreshed.
  destruct (decide (ReadMeterInfo j ∈ completion)),
    (decide (ReadHistoricalData j ∈ completion)),
    (meter_info_of client (meter_uuid m)) as [?|[]],
    (historical_data_of client (meter_uuid m) days); done.
Qed.

Lemma imap_at_one (f : nat → Meter → Meter) i meters :
  (∀ j m', j ≠ i → f j m' = m') →
  imap f meters =
    match meters !! i with
    | Some m => <[i := f i m]> meters
    | None => meters
    end.
Proof.
  intros Hother. apply list_eq. intros j. rewrite list_lookup_imap.
  destruct (decide (j = i)) as [->|Hne].
  - destruct (meters !! i) as [m|] eqn:Hm; simpl.
    + rewrite list_lookup_insert_eq by by eapply lookup_lt_Some. done.
    + by rewrite Hm.
  - destruct (meters !! j) as [m'|] eqn:Hj; simpl.
    + rewrite Hother by done.
      destruct (meters !! i); [by rewrite list_lookup_insert_ne|done].
    + destruct (meters !! i); [by rewrite list_lookup_insert_ne|done].
Qed.

Lemma refreshed_other client days (task : Task) j m :
  j ≠ task_meter task → refreshed client days [task] j m = m.
Proof.
  intros Hj. unfold refreshed.
  rewrite !decide_False; [done|..];
    intros [<-|Hnil%elem_of_nil]%elem_of_cons; done.
Qed.

(** One fetch, whatever it answers: the store after it. *)
Lemma run_task_refreshed client days task meters hass :
  (run_task client days task (meters, hass)).1 =
    (imap (refreshed client days [task]) meters, hass).
Proof.
  rewrite (imap_at_one _ (task_meter task))
    by (intros j m' Hj; by apply refreshed_other).
  destruct task as [i|i]; simpl; unfold for_meter, read_meter_info,
    read_historical_data, refreshed; py_simpl;
    destruct (meters !! i) as [m|] eqn:Hm; simpl; try done.
  - rewrite decide_True by by left.
    destruct (meter_info_of client (meter_uuid m)) as [e|[info r]]; done.
  - rewrite decide_True by by left.
    destruct (historical_data_of client (meter_uuid m) days); done.
Qed.

Lemma refreshed_cons client days (task : Task) rest j m :
  refreshed client days rest j (refreshed client days [task] j m) =
    refreshed client days (task :: rest) j m.
Proof.
  destruct m as [id uuid unit info r history]. unfold refreshed. simpl.
  destruct (meter_info_of client uuid) as [e1|[info' r']] eqn:Hinfo,
    (historical_data_of client uuid days) as [e2|data] eqn:Hdata;
    repeat (match goal with
            | |- context [decide ?P] => destruct (decide P)
            end; simpl; rewrite ?Hinfo, ?Hdata; simpl);
    try done; exfalso;
    rewrite ?elem_of_cons, ?elem_of_nil in *; intuition congruence.
Qed.

(** The store after the late fetches of a [gather], and after a
    [gather]: each fetch in the list has run, the failing ones without
    effect. *)
Lemma settle_store client days late meters hass :
  settle client days late (meters, hass) =
    ((imap (refreshed client days late) meters, hass), inr ()).
Proof.
  revert meters. induction late as [|t l IH]; intros meters.
  - simpl. py_simpl. do 2 f_equal. apply list_eq. intros j.
    rewrite list_lookup_imap. destruct (meters !! j) as [m|]; [|done].
    simpl. unfold refreshed. by rewrite !decide_False by apply not_elem_of_nil.
  - simpl. unfold mbind, Py_bind, try_except.
    pose proof (run_task_refreshed client days t meters hass) as Hstore.
    destruct (run_task client days t (meters, hass)) as [s1 [e|[]]];
      simpl in Hstore; subst s1; unfold pass, mret, Py_ret; rewrite IH;
      do 2 f_equal; apply list_eq; intros j;
      rewrite !list_lookup_imap; (destruct (meters !! j) as [m|]; [|done]);
      simpl; by rewrite refreshed_cons.
Qed.

Lemma gather_store client days completion meters hass :
  (gather client days completion (meters, hass)).1 =
    (imap (refreshed client days completion) meters, hass).
Proof.
  revert meters. induction completion as [|t l IH]; intros meters.
  - simpl. py_simpl. f_equal. apply list_eq. intros j.
    rewrite list_lookup_imap. destruct (meters !! j) as [m|]; [|done].
    simpl. unfold refreshed. by rewrite !decide_False by apply not_elem_of_nil.
  - simpl. unfold mbind, Py_bind, try_except.
    pose proof (run_task_refreshed client days t meters hass) as Hstore.
    destruct (run_task client days t (meters, hass)) as [s1 [e|[]]];
      simpl in Hstore; subst s1.
    + rewrite settle_store. unfold raise. simpl. f_equal.
      apply list_eq. intros j.
      rewrite !list_lookup_imap. destruct (meters !! j) as [m|]; [|done].
      simpl. by rewrite refreshed_cons.
    + rewrite IH. f_equal. apply list_eq. intros j.
      rewrite !list_lookup_imap. destruct (meters !! j) as [m|]; [|done].
      simpl. by rewrite refreshed_cons.
Qed.

(** [gather] raises the exception of the first fetch that fails. *)
Lemma gather_first_failure client days done failed late meters hass e :
  Forall (λ t, task_error client days meters t = None) done →
  task_error client days meters failed = Some e →
  gather client days (done ++ failed :: late) (meters, hass) =
    ((imap (refreshed client days (done ++ failed :: late)) meters, hass),
     inl e).
Proof.
  intros Hdone Hfailed.
  pose proof (gather_store client days (done ++ failed :: late) meters hass)
    as Hstore.
  destruct (gather client days (done ++ failed :: late) (meters, hass))
    as [s' r] eqn:Hg. simpl in Hstore. subst s'. f_equal.
  apply (f_equal snd) in Hg. simpl in Hg. rewrite <-Hg. clear Hg.
  revert meters Hdone Hfailed.
  induction done as [|t done IH]; intros meters Hdone Hfailed; simpl.
  - unfold mbind, Py_bind, try_except.
    rewrite (run_task_error _ _ _ _ _ e) by done.
    by rewrite settle_store.
  - apply Forall_cons in Hdone as [Ht Hdone].
    destruct (run_task_ok client days t meters hass Ht)
      as (meters1 & Hrun & Huuid & _).
    unfold mbind, Py_bind, try_except. rewrite Hrun. apply IH.
    + eapply Forall_impl; [done|]. intros t' Ht'. simpl.
      by rewrite (task_error_uuid _ _ meters).
    + by rewrite (task_error_uuid _ _ meters).
Qed.



Lemma read_meters_raises client completion days s s' e :
  gather client days completion s = (s', inl e) →
  read_meters client completion days s =
    (s', inl (if api_or_auth_error e then UpdateFailed else e)).
Proof.
  intros Hg. unfold read_meters. py_simpl. rewrite Hg.
  by destruct (api_or_auth_error e).
Qed.






(** C10, on the code.  When [authenticate] would fail at setup with a
    timeout, [async_setup_entry] does not raise [ConfigEntryNotReady]: it
    raises [NameError] at line 31, before [authenticate] is called, as it
    does for a rejection of the credentials and for credentials that are
    accepted. *)
Theorem setup_stops_at_unbound_name client data hass :
  authenticate client = Some TimeoutError →
  async_setup_entry client (data, hass) = ((data, hass), inl NameError) ∧
  (async_setup_entry client (data, hass)).2 ≠ inl ConfigEntryNotReady.
Proof. intros _. split; [reflexivity|discriminate]. Qed.

(** *** The bulk import *)

(** The loop body of [import_historical_data], path by path. *)
Lemma import_meter_cases client recorder days meter hass :
  import_meter client recorder days (meter, hass) =
    match historical_data_of client (meter_uuid meter) days with
    | inl e => ((meter, hass), inl (reraised e))
    | inr data =>
        let meter' := set_last_historical_data data meter in
        match get_statistic_metadata meter' with
        | inl e => ((meter', hass), inl (reraised e))
        | inr metadata =>
            match recorder metadata (convert_statistic_data data) with
            | Some e =>
                ((meter', submitted hass metadata data), inl (reraised e))
            | None => ((meter', submitted hass metadata data), inr ())
            end
        end
    end.
Proof.
  unfold import_meter, read_historical_data, async_import_statistics,
    submitted, reraised.
  py_simpl.
  destruct (historical_data_of client (meter_uuid meter) days)
    as [e|data]; py_simpl.
  { by destruct (api_or_auth_error e). }
  destruct (get_statistic_metadata _) as [e|metadata]; py_simpl.
  { by destruct (api_or_auth_error e). }
  destruct (recorder metadata _) as [e|]; py_simpl; [|done].
  by destruct (api_or_auth_error e).
Qed.







(** C3 (as the code has it).  The regular reconciliation either submits
    nothing and leaves the watermark where it is, or submits one batch,
    made of exactly the fetched points that lie strictly after the
    watermark.  The bulk import does not look at any watermark: once the
    history of a meter is fetched and its metadata built, the batch it
    submits is the whole fetched history. *)
Theorem reconciliation_submits_newer_points recorder :
  (∀ coordinator meter self hass,
     let w := EyeOnWaterStatistic._last_imported_time self in
     let fetched := last_historical_data meter in
     let newer := filter_newer_data fetched w in
     let result :=
       EyeOnWaterStatistic._state_update coordinator recorder meter
         (self, hass) in
     (∀ p, p ∈ newer ↔ p ∈ fetched ∧ newer_than w p) ∧
     (result.1.2 = hass ∧
      EyeOnWaterStatistic._last_imported_time result.1.1 = w ∨
      ∃ metadata, result.1.2 = submitted hass metadata newer)) ∧
  (∀ client days meter hass data metadata,
     historical_data_of client (meter_uuid meter) days = inr data →
     get_statistic_metadata (set_last_historical_data data meter) =
       inr metadata →
     (import_meter client recorder days (meter, hass)).1 =
       (set_last_historical_data data meter,
        submitted hass metadata data)).
Proof.
  split.
  - intros coordinator meter self hass w fetched newer result.
    split; [apply filter_newer_data_elem_of|].
    subst result. rewrite _state_update_cases. fold w fetched newer.
    destruct (last_update_success coordinator); [|by left].
    destruct fetched as [|d ds]; [by left|].
    destruct (last newer) as [p|]; [|by left].
    destruct (get_statistic_metadata meter) as [e|metadata]; [by left|].
    destruct (recorder metadata _); right; by exists metadata.
  - intros client days meter hass data metadata Hdata Hmeta.
    rewrite import_meter_cases, Hdata. simpl. rewrite Hmeta.
    by destruct (recorder metadata _).
Qed.
End CoordinatorProperties.

(** ** The entities *)

Section EntityProperties.
Context `{StatisticHelper}.

(** C8.  When the coordinator reports a failed cycle
    ([last_update_success] unset), every entity of every meter, in
    whatever state the update finds it, reports itself unavailable once
    its listener has run, and the listener submits nothing to the
    statistics store. *)
Theorem failed_cycle_makes_entities_unavailable
    coordinator recorder meter (e : Entity) (hass : HomeAssistant) :
  last_update_success coordinator = false →
  let result := entity_listener coordinator recorder meter (e, hass) in
  entity_available coordinator result.1.1 = false ∧ result.1.2 = hass.
Proof.
  intros Hfailed result. subst result. unfold entity_listener.
  destruct e as [self|self| |self].
  - rewrite _state_update_cases, Hfailed. done.
  - unfold EyeOnWaterSensor._state_update,
      EyeOnWaterSensor.async_write_ha_state.
    py_simpl. rewrite Hfailed. done.
  - done.
  - destruct (EyeOnWaterBinarySensor._handle_coordinator_update meter self)
      as [self' r].
    done.
Qed.
End EntityProperties.

(** The entities that the two platforms create for one meter without a
    temperature sensor: the statistic, the reading, and the seven flags. *)
Example entities_of_one_meter :
  (sensor_async_setup_entry (λ _, Some 212) [Sample.meter "a" []]).*2 =
    [Statistic (EyeOnWaterStatistic.__init__ (Some 212));
     Sensor EyeOnWaterSensor.__init__] ∧
  length (binary_sensor_async_setup_entry [Sample.meter "a" []]) = 7%nat.
Proof. split; reflexivity. Qed.

(** ** Where the code departs from the spec *)


(** The same cycle as a flag sensor of meter "a" sees it: the coordinator
    has failed, and the leak flag it reads is the one this cycle fetched. *)
Example failed_cycle_seen_by_flag_sensor :
  let s := (EyeOnWaterData.read_meters (H := Sample.helper)
              Sample.client_b_down
              (EyeOnWaterData.tasks
                 [Sample.meter "a" []; Sample.meter "b" []]) 3
              ([Sample.meter "a" []; Sample.meter "b" []], Sample.hass)) in
  s.2 = inl UpdateFailed ∧
  ∃ meter_a, s.1.1 !! 0%nat = Some meter_a ∧
    (EyeOnWaterBinarySensor.get_flag meter_a
       (EyeOnWaterBinarySensor.__init__ (mkDescription "leak" None))).2 =
    inr true.
Proof. split; [reflexivity|]. eexists. split; reflexivity. Qed.

(** C3, counterexample.  The statistic entity of meter "a" has its
    watermark at day 2 12:00; a bulk import fetches the four points of the
    sample history and submits them all, the two at or before the
    watermark included. *)
Lemma bulk_import_submits_imported_points :
  ¬ bulk_import_respects_watermark.
Proof.
  intros Hclaim.
  specialize (Hclaim Sample.client_up Sample.accepting 3
    (Sample.meter "a" []) (EyeOnWaterStatistic.__init__ (Some 212)) 212
    eq_refl ("a"%string, Sample.history)).
  assert (Forall (λ p, 212 < dt p) Sample.history) as Hall.
  { apply Hclaim. vm_compute. left. }
  apply Forall_cons in Hall as [Hold _]. simpl in Hold. lia.
Qed.


Example later_meters_never_run :
  EyeOnWaterData.import_historical_data (H := Sample.helper)
    Sample.client_a_down Sample.accepting 3
    ([Sample.meter "a" []; Sample.meter "b" []], Sample.hass) =
  (([Sample.meter "a" []; Sample.meter "b" []], Sample.hass),
   inl UpdateFailed).
Proof. reflexivity. Qed.

(** C9, counterexample.  The statistic entity of meter "a" has its
    watermark at day 2 12:00 and the fetched history is the sample one,
    ordered by timestamp.  The statistics store is down at the first
    reconciliation, which submits the two newer points and raises, and
    back at the second one on the same fetched data: that one submits the
    two points again, a second submission call, and moves the watermark
    to day 3 18:00. *)
Lemma retried_reconciliation_submits_again :
  ¬ second_reconciliation_is_idle.
Proof.
  intros Hclaim.
  destruct (Hclaim Sample.helper (mkCoordinator true) Outage.rejecting
              Sample.accepting (Sample.meter "a" Sample.history)
              (EyeOnWaterStatistic.__init__ (Some 212)) Sample.hass)
    as [Hwatermark _].
  vm_compute in Hwatermark. discriminate Hwatermark.
Qed.

(** ** The theorems at sample inputs *)

Lemma filter_newer_data_spec_witness :
  [Sample.day3_1800] `sublist_of` filter_newer_data Sample.history (Some 212).
Proof.
  destruct (filter_newer_data_spec Sample.history (Some 212))
    as (_ & _ & Hcut).
  destruct (Hcut 212) as (_ & _ & Hmax). apply Hmax.
  - unfold Sample.history. repeat constructor.
  - by repeat constructor.
Defined.

Lemma empty_history_raises_no_data_witness :
  ∃ self',
    EyeOnWaterStatistic._state_update (H := Sample.helper)
      (mkCoordinator true) Sample.accepting (Sample.meter "a" [])
      (EyeOnWaterStatistic.__init__ (Some 212), Sample.hass) =
      ((self', Sample.hass), inl NoDataFound) ∧
    EyeOnWaterStatistic._last_imported_time self' = Some 212.
Proof.
  apply (empty_history_raises_no_data (H := Sample.helper)
           (mkCoordinator true) Sample.accepting (Sample.meter "a" [])
           (EyeOnWaterStatistic.__init__ (Some 212)) Sample.hass);
    reflexivity.
Defined.

(** The scenario of the spec: the watermark goes from day 2 12:00 to day 3
    18:00. *)
Lemma watermark_advances_witness :
  EyeOnWaterStatistic._last_imported_time
    (EyeOnWaterStatistic._state_update (H := Sample.helper)
       (mkCoordinator true) Sample.accepting
       (Sample.meter "a" Sample.history)
       (EyeOnWaterStatistic.__init__ (Some 212), Sample.hass)).1.1 =
    Some 318 ∧
  watermark_lt (Some 212) (Some 318).
Proof.
  destruct (watermark_advances (H := Sample.helper) (mkCoordinator true)
              Sample.accepting (Sample.meter "a" Sample.history)
              (EyeOnWaterStatistic.__init__ (Some 212)) Sample.hass)
    as (_ & Hadvance & _).
  apply Hadvance. vm_compute. discriminate.
Defined.

Lemma second_reconciliation_imports_nothing_witness :
  ∃ self2,
    EyeOnWaterStatistic._state_update (H := Sample.helper)
      (mkCoordinator true) Sample.accepting
      (Sample.meter "a" Sample.history)
      (EyeOnWaterStatistic.mk (Some 318) (Some (mkDataPoint 0 100)) true
         [Sample.day3_0900; Sample.day3_1800],
       Sample.imported [("a"%string, [Sample.day3_0900; Sample.day3_1800])]) =
      ((self2,
        Sample.imported [("a"%string, [Sample.day3_0900; Sample.day3_1800])]),
       inr ()) ∧
    EyeOnWaterStatistic._last_imported_time self2 = Some 318.
Proof.
  apply (second_reconciliation_imports_nothing (H := Sample.helper)
           (mkCoordinator true) Sample.accepting Sample.accepting
           (Sample.meter "a" Sample.history)
           (EyeOnWaterStatistic.__init__ (Some 212)) Sample.hass).
  - unfold ordered, Sample.history. simpl.
    repeat (constructor; simpl; try lia).
  - reflexivity.
Defined.

(** The order of the history matters to a second reconciliation: on a
    history that is not ordered the watermark goes to the last point, not
    to the newest, and the newest is submitted again. *)
Example unordered_history_is_submitted_twice :
  let meter := Sample.meter "a" [Sample.day3_1800; Sample.day3_0900] in
  let first :=
    EyeOnWaterStatistic._state_update (H := Sample.helper)
      (mkCoordinator true) Sample.accepting meter
      (EyeOnWaterStatistic.__init__ (Some 212), Sample.hass) in
  let second :=
    EyeOnWaterStatistic._state_update (H := Sample.helper)
      (mkCoordinator true) Sample.accepting meter first.1 in
  EyeOnWaterStatistic._last_imported_time first.1.1 = Some 309 ∧
  second.1.2 =
    Sample.imported [("a"%string, [Sample.day3_1800; Sample.day3_0900]);
                     ("a"%string, [Sample.day3_1800])].
Proof. split; reflexivity. Qed.


Lemma reconciliation_submits_newer_points_witness :
  (EyeOnWaterData.import_meter (H := Sample.helper) Sample.client_up
     Sample.accepting 3 (Sample.meter "a" [], Sample.hass)).1 =
  (Sample.meter "a" Sample.history,
   Sample.imported [("a"%string, Sample.history)]).
Proof.
  destruct (reconciliation_submits_newer_points (H := Sample.helper)
              Sample.accepting) as [_ Hbulk].
  apply (Hbulk Sample.client_up 3 (Sample.meter "a" []) Sample.hass
           Sample.history "a"%string); reflexivity.
Defined.



Lemma setup_stops_at_unbound_name_witness :
  @async_setup_entry Sample.helper Sample.client_timeout (None, Sample.hass) =
    ((None, Sample.hass), inl NameError) ∧
  (@async_setup_entry Sample.helper Sample.client_timeout
     (None, Sample.hass)).2 ≠ inl ConfigEntryNotReady.
Proof.
  apply (setup_stops_at_unbound_name (H := Sample.helper)
           Sample.client_timeout None Sample.hass).
  reflexivity.
Defined.

(** A reading sensor that was available with a value before the failed
    cycle. *)
Lemma failed_cycle_makes_entities_unavailable_witness :
  let result :=
    entity_listener (H := Sample.helper) (mkCoordinator false)
      Sample.accepting (Sample.meter "a" Sample.history)
      (Sensor (EyeOnWaterSensor.mk (Some Sample.day2_1200) true),
       Sample.hass) in
  entity_available (mkCoordinator false) result.1.1 = false ∧
  result.1.2 = Sample.hass.
Proof.
  apply (failed_cycle_makes_entities_unavailable (H := Sample.helper)).
  reflexivity.
Defined.

(** * Further properties of the code *)

(** ** A polling cycle *)

Section CycleProperties.
Context `{StatisticHelper}.
Import EyeOnWaterData.

Implicit Types (meters : list Meter) (hass : HomeAssistant).

Lemma read_meters_store client completion days s :
  (read_meters client completion days s).1 =
    (gather client days completion s).1.
Proof.
  unfold read_meters. py_simpl.
  destruct (gather client days completion s) as [s' [e|[]]]; [|done].
  by destruct (api_or_auth_error e).
Qed.

(** X2.  A polling cycle, however it ends and in whatever order its
    fetches finish, keeps the list of meters as long as it was and every
    meter's id, uuid and unit as they were, and leaves [hass] alone; the
    list it returns is the stored one. *)
Theorem cycle_keeps_meter_identities client completion days meters hass :
  let result := read_meters client completion days (meters, hass) in
  meter_identity <$> result.1.1 = meter_identity <$> meters ∧
  length result.1.1 = length meters ∧
  result.1.2 = hass ∧
  ∀ returned, result.2 = inr returned → returned = result.1.1.
Proof.
  intros result.
  assert (meter_identity <$> result.1.1 = meter_identity <$> meters ∧
          result.1.2 = hass) as [Hid Hhass].
  { subst result. rewrite read_meters_store, gather_store.
    simpl. split; [|done].
    apply list_eq. intros j.
    rewrite !list_lookup_fmap, list_lookup_imap.
    destruct (meters !! j) as [m|]; [|done]. simpl.
    by rewrite refreshed_identity. }
  split; [done|]. split.
  { apply (f_equal length) in Hid. by rewrite !length_fmap in Hid. }
  split; [done|].
  subst result. unfold read_meters. py_simpl.
  destruct (gather client days completion (meters, hass)) as [s' [e|[]]].
  - destruct (api_or_auth_error e); by intros.
  - simpl. by intros ? [= <-].
Qed.

(** X3.  No API or authentication error ever leaves [setup],
    [read_meters] or the bulk import: what they raise is something else
    ([UpdateFailed] in place of those two). *)
Theorem coordinator_never_raises_api_errors client recorder completion days
    (s : EyeOnWaterData.t) e :
  (setup client s).2 = inl e ∨
  (read_meters client completion days s).2 = inl e ∨
  (import_historical_data client recorder days s).2 = inl e →
  api_or_auth_error e = false.
Proof.
  assert (∀ e', api_or_auth_error (reraised e') = false) as Hre
    by (by intros []).
  intros [Hsetup|[Hread|Himport]].
  - unfold setup in Hsetup. py_simpl.
    destruct (fetch_meters client) as [e'|ms]; simpl in Hsetup.
    + pose proof (Hre e') as He'. unfold reraised in He'.
      destruct (api_or_auth_error e') eqn:Hcatch; simpl in Hsetup;
        by simplify_eq.
    + destruct s; simpl in Hsetup. done.
  - unfold read_meters in Hread. py_simpl.
    destruct (gather client days completion s) as [s' [e'|[]]];
      simpl in Hread; [|done].
    pose proof (Hre e') as He'. unfold reraised in He'.
    destruct (api_or_auth_error e') eqn:Hcatch; simpl in Hread;
      by simplify_eq.
  - unfold import_historical_data in Himport. py_simpl.
    revert Himport. generalize (seq 0 (length s.1)).
    intros indices. revert s.
    induction indices as [|i l IH]; intros [meters hass]; simpl; [done|].
    unfold mbind, Py_bind, for_meter at 1.
    destruct (meters !! i) as [m|]; [|by intros [= <-]].
    rewrite import_meter_cases.
    destruct (historical_data_of client (meter_uuid m) days) as [e'|data];
      simpl; [by intros [= <-]|].
    destruct (get_statistic_metadata _) as [e'|metadata];
      simpl; [by intros [= <-]|].
    destruct (recorder metadata _) as [e'|]; simpl; [by intros [= <-]|].
    apply IH.
Qed.
End CycleProperties.

(** ** The bulk import *)

Section BulkProperties.
Context `{StatisticHelper}.
Import EyeOnWaterData.

Implicit Types (meters : list Meter) (hass : HomeAssistant).

Lemma import_meter_current client recorder days i meters hass :
  meter_current <$>
    (for_meter i (import_meter client recorder days) (meters, hass)).1.1 =
  meter_current <$> meters.
Proof.
  unfold for_meter. destruct (meters !! i) as [m|] eqn:Hm; [|done].
  rewrite import_meter_cases.
  assert (∀ m', meter_current m' = meter_current m →
            meter_current <$> <[i:=m']> meters = meter_current <$> meters)
    as Hsame.
  { intros m' Hm'. rewrite list_fmap_insert, Hm'. apply list_insert_id.
    by rewrite list_lookup_fmap, Hm. }
  destruct (historical_data_of client (meter_uuid m) days) as [e|data];
    simpl; [by apply Hsame|].
  destruct (get_statistic_metadata _) as [e|metadata];
    simpl; [by apply Hsame|].
  destruct (recorder metadata _); simpl; by apply Hsame.
Qed.

(** X5.  The bulk import, however it ends, writes nothing but the
    history of a meter: the list of meters keeps its length, and every
    meter its id, uuid, unit, info and current reading. *)
Theorem bulk_import_keeps_info_and_reading client recorder days meters hass :
  let result := import_historical_data client recorder days (meters, hass) in
  meter_current <$> result.1.1 = meter_current <$> meters ∧
  length result.1.1 = length meters.
Proof.
  intros result.
  assert (meter_current <$> result.1.1 = meter_current <$> meters) as Hsame.
  { subst result. unfold import_historical_data. py_simpl.
    generalize (seq 0 (length meters)). intros indices.
    revert meters hass.
    induction indices as [|i l IH]; intros meters hass; simpl; [done|].
    unfold mbind, Py_bind.
    pose proof (import_meter_current client recorder days i meters hass)
      as Hstep.
    destruct (for_meter i _ (meters, hass)) as [[meters1 hass1] [e|[]]];
      simpl in Hstep; [done|].
    by rewrite IH. }
  split; [done|].
  apply (f_equal length) in Hsame. by rewrite !length_fmap in Hsame.
Qed.
End BulkProperties.

Section CycleErrorProperties.
Context `{StatisticHelper}.
Import EyeOnWaterData.

(** X6.  When the first fetch to fail raises something else than an API
    or authentication error (a timeout, say), [read_meters] does not turn
    it into [UpdateFailed]: that exception comes out as it is, whatever
    fetches finish after it before [read_meters] sees it. *)
Theorem other_fetch_errors_pass_through
    client completion done failed late days meters hass e :
  completion = done ++ failed :: late →
  Forall (λ t, task_error client days meters t = None) done →
  task_error client days meters failed = Some e →
  api_or_auth_error e = false →
  (read_meters client completion days (meters, hass)).2 = inl e.
Proof.
  intros -> Hdone Hfailed Hother.
  by rewrite (read_meters_raises _ _ _ _ _ _
                (gather_first_failure client days done failed late meters
                   hass e Hdone Hfailed)), Hother.
Qed.
End CycleErrorProperties.

(** ** Setting up and unloading a config entry *)

Section HassDataProperties.
Context `{StatisticHelper}.

Implicit Types (data : option (gmap string Entry)) (hass : HomeAssistant).

(** X8.  Unloading an entry that is registered in [hass.data] removes
    that entry and nothing else, and returns [True]; the dictionary under
    [DOMAIN] stays, also when the entry was the last one in it. *)
Theorem unload_removes_the_entry entry_id data :
  is_Some (entry_of entry_id data) →
  ∃ domain,
    async_unload_entry entry_id true data = (Some domain, inr true) ∧
    entry_of entry_id (Some domain) = None ∧
    ∀ other, other ≠ entry_id →
             entry_of other (Some domain) = entry_of other data.
Proof.
  unfold async_unload_entry, entry_of.
  destruct data as [domain|]; [|by intros [? ?]].
  intros [entry Hentry]. rewrite Hentry.
  exists (delete entry_id domain). split; [done|]. split.
  - apply lookup_delete_eq.
  - intros other Hother. by rewrite lookup_delete_ne.
Qed.

(** X9.  [async_unload_entry] when the platforms did not unload changes
    nothing and returns [False]; when they did, an entry that is not
    registered (never set up, or unloaded once already) makes it raise
    [KeyError] and change nothing. *)
Theorem unload_entry_edges entry_id data :
  async_unload_entry entry_id false data = (data, inr false) ∧
  (entry_of entry_id data = None →
     async_unload_entry entry_id true data = (data, inl KeyError)) ∧
  (∀ data', async_unload_entry entry_id true data = (data', inr true) →
     async_unload_entry entry_id true data' = (data', inl KeyError)).
Proof.
  split; [done|]. split.
  - unfold async_unload_entry, entry_of.
    destruct data as [domain|]; [|done]. by intros ->.
  - intros data'. unfold async_unload_entry.
    destruct data as [domain|]; [|done].
    destruct (domain !! entry_id); [|done].
    intros [= <-]. by rewrite lookup_delete_eq.
Qed.

Lemma length_join_imap {A B} (f : nat → A → list B) (l : list A) n :
  (∀ i x, length (f i x) = n) →
  length (mjoin (imap f l)) = (n * length l)%nat.
Proof.
  intros Hf. revert f Hf. induction l as [|x l IH]; intros f Hf; simpl.
  - lia.
  - rewrite length_app, Hf, (IH (f ∘ S)) by (intros; apply Hf). lia.
Qed.

Lemma flag_sensor_count (meters : list Meter) :
  length (binary_sensor_async_setup_entry meters) = (7 * length meters)%nat.
Proof.
  unfold binary_sensor_async_setup_entry. apply length_join_imap.
  intros. by rewrite length_fmap.
Qed.

(** X10.  The two platforms find their meters exactly while the entry is
    registered in [hass.data]: with the entry there, they create their
    entities for its meters, seven flag sensors a meter; with no entry
    there, and so once it is unloaded, their subscripts into [hass.data]
    raise [KeyError]. *)
Theorem platforms_follow_the_entry entry_id get_last_imported_time data :
  (∀ entry, entry_of entry_id data = Some entry →
     sensor_platform entry_id get_last_imported_time data =
       inr (sensor_async_setup_entry get_last_imported_time
              (DATA_SMART_METER entry)) ∧
     binary_sensor_platform entry_id data =
       inr (binary_sensor_async_setup_entry (DATA_SMART_METER entry)) ∧
     length (binary_sensor_async_setup_entry (DATA_SMART_METER entry)) =
       (7 * length (DATA_SMART_METER entry))%nat ∧
     ∀ data', async_unload_entry entry_id true data = (data', inr true) →
       sensor_platform entry_id get_last_imported_time data' = inl KeyError ∧
       binary_sensor_platform entry_id data' = inl KeyError) ∧
  (entry_of entry_id data = None →
     sensor_platform entry_id get_last_imported_time data = inl KeyError ∧
     binary_sensor_platform entry_id data = inl KeyError).
Proof.
  unfold sensor_platform, binary_sensor_platform, entry_meters. split.
  - intros entry Hentry. rewrite Hentry.
    split; [done|]. split; [done|]. split; [apply flag_sensor_count|].
    unfold async_unload_entry, entry_of in *.
    destruct data as [domain|]; [|done]. rewrite Hentry.
    intros data' [= <-]. by rewrite lookup_delete_eq.
  - by intros ->.
Qed.
End HassDataProperties.

(** ** The entities the platforms create *)

Lemma elem_of_join_imap {A B} (f : nat → A → list B) (l : list A) i y :
  (i, y) ∈ mjoin (imap (λ j x, (λ e, (j, e)) <$> f j x) l) ↔
  ∃ x, l !! i = Some x ∧ y ∈ f i x.
Proof.
  rewrite list_elem_of_join. split.
  - intros (es & Hin & (j & x & -> & Hx)%elem_of_lookup_imap).
    apply list_elem_of_fmap in Hin as (e & [= -> ->] & He). by exists x.
  - intros (x & Hx & Hy). exists ((λ e, (i, e)) <$> f i x). split.
    + apply list_elem_of_fmap. by exists y.
    + apply elem_of_lookup_imap. by exists i, x.
Qed.

(** Lists without repetition, tagged each with its index and joined, make
    a list without repetition. *)
Lemma NoDup_join_imap {A B} (f : nat → A → list B) (l : list A) :
  (∀ j x, NoDup (f j x)) →
  NoDup (mjoin (imap (λ j x, (λ e, (j, e)) <$> f j x) l)).
Proof.
  intros Hf.
  cut (∀ k, NoDup (mjoin (imap (λ j x, (λ e, (j + k, e)%nat) <$> f j x) l)) ∧
            ∀ i y, (i, y) ∈ mjoin (imap (λ j x, (λ e, (j + k, e)%nat)
                                            <$> f j x) l) → (k ≤ i)%nat).
  { intros Hcut. destruct (Hcut 0%nat) as [Hnodup _].
    erewrite imap_ext; [exact Hnodup|]. intros j x _. simpl.
    by rewrite Nat.add_0_r. }
  revert f Hf. induction l as [|x l IH]; intros f Hf k; simpl.
  - split; [constructor|]. by intros i y ?%elem_of_nil.
  - assert (imap ((λ j x0, (λ e, ((j + k)%nat, e)) <$> f j x0) ∘ S) l =
            imap (λ j x0, (λ e, ((j + S k)%nat, e)) <$> (f ∘ S) j x0) l)
      as Htail.
    { apply imap_ext. intros j x0 _. simpl. apply list_fmap_ext.
      intros ???. f_equal. lia. }
    rewrite Htail.
    destruct (IH (f ∘ S) (λ j, Hf (S j)) (S k)) as [Hnodup Hbound].
    split.
    + apply NoDup_app. split; [|split; [|done]].
      * apply NoDup_fmap; [|apply Hf]. by intros ?? [= ->].
      * intros [i y] (e & [= -> ->] & _)%list_elem_of_fmap Hin.
        apply Hbound in Hin. lia.
    + intros i y [(e & [= -> ->] & _)%list_elem_of_fmap|Hin]%elem_of_app.
      * lia.
      * apply Hbound in Hin. lia.
Qed.

Lemma NoDup_FLAG_SENSORS : NoDup FLAG_SENSORS.
Proof. apply (bool_decide_unpack _). by vm_compute. Qed.

(** X11.  The sensor platform creates, for the meter at each index,
    exactly one statistic entity, which starts from the watermark the
    statistics store reported for that meter, exactly one reading sensor,
    and a temperature sensor (one) exactly when the meter info has sensors
    with an endpoint temperature; the binary-sensor platform creates, for
    each meter, exactly one flag sensor for each description of
    [FLAG_SENSORS], initially off.  Nothing else is created, and nothing
    twice. *)
Theorem entities_of_each_meter
    (get_last_imported_time : Meter → option datetime) (meters : list Meter) :
  NoDup (sensor_async_setup_entry get_last_imported_time meters) ∧
  NoDup (binary_sensor_async_setup_entry meters) ∧
  ∀ (i : nat) (e : Entity),
    ((i, e) ∈ sensor_async_setup_entry get_last_imported_time meters ↔
       ∃ m, meters !! i = Some m ∧
         (e = Statistic
                (EyeOnWaterStatistic.__init__ (get_last_imported_time m)) ∨
          e = Sensor EyeOnWaterSensor.__init__ ∨
          e = TempSensor ∧
            ∃ s, sensors (meter_info m) = Some s ∧
                 is_Some (endpoint_temperature s))) ∧
    ((i, e) ∈ binary_sensor_async_setup_entry meters ↔
       (i < length meters)%nat ∧
       ∃ d, d ∈ FLAG_SENSORS ∧
         e = BinarySensor (EyeOnWaterBinarySensor.mk d false)).
Proof.
  pose (flag_sensors := λ (_ : nat) (_ : Meter),
          (λ d, BinarySensor (EyeOnWaterBinarySensor.__init__ d))
            <$> FLAG_SENSORS).
  assert (binary_sensor_async_setup_entry meters =
          mjoin (imap (λ j x, (λ e, (j, e)) <$> flag_sensors j x) meters))
    as Hbinary by done.
  split; [|split; [|intros i e; split]].
  - unfold sensor_async_setup_entry.
    apply (NoDup_join_imap
             (λ _ m, sensor_entities (get_last_imported_time m) m)).
    intros j m. unfold sensor_entities.
    destruct (sensors (meter_info m)) as [s|];
      [destruct (endpoint_temperature s)|]; simpl;
      repeat (apply NoDup_cons; split;
              [rewrite ?elem_of_cons, ?elem_of_nil; intuition discriminate|]);
      apply NoDup_nil_2.
  - rewrite Hbinary. apply (NoDup_join_imap flag_sensors). intros j m.
    unfold flag_sensors.
    apply NoDup_fmap; [|apply NoDup_FLAG_SENSORS]. by intros ?? [= ->].
  - unfold sensor_async_setup_entry.
    rewrite (elem_of_join_imap
               (λ _ m, sensor_entities (get_last_imported_time m) m)).
    apply exist_proper. intros m. apply and_iff_compat_l.
    unfold sensor_entities.
    rewrite elem_of_app, elem_of_cons, list_elem_of_singleton.
    destruct (sensors (meter_info m)) as [s|];
      [destruct (endpoint_temperature s) as [t|] eqn:Ht|];
      rewrite ?list_elem_of_singleton, ?elem_of_nil.
    + split; [|tauto].
      intros [[?|?]|?]; [tauto|tauto|]. right. right. split; [done|].
      exists s. by rewrite Ht.
    + split; [tauto|].
      intros [?|[?|[_ (s' & [= <-] & Hsome)]]]; [tauto|tauto|].
      rewrite Ht in Hsome. by destruct (is_Some_None (A := EndpointTemperature)).
    + split; [tauto|].
      intros [?|[?|[_ (s' & [=] & _)]]]; tauto.
  - rewrite Hbinary, (elem_of_join_imap flag_sensors).
    unfold flag_sensors.
    split.
    + intros (m & Hm & (d & -> & Hd)%list_elem_of_fmap).
      split; [by eapply lookup_lt_Some|]. by exists d.
    + intros (Hi & d & Hd & ->).
      destruct (lookup_lt_is_Some_2 meters i Hi) as [m Hm].
      exists m. split; [done|]. apply list_elem_of_fmap. by exists d.
Qed.

(** ** The statistic entity over the updates of a process *)

Section LifetimeProperties.
Context `{StatisticHelper}.

Implicit Types (hass : HomeAssistant) (us : list Update).

Lemma updates_app us1 us2 s :
  updates (us1 ++ us2) s = updates us2 (updates us1 s).
Proof. revert s. induction us1 as [|u l IH]; intros s; simpl; auto. Qed.

(** What every outcome of one update has in common. *)
Lemma _state_update_shown coordinator recorder meter
    (self : EyeOnWaterStatistic.t) hass :
  let self' :=
    (EyeOnWaterStatistic._state_update coordinator recorder meter
       (self, hass)).1.1 in
  EyeOnWaterStatistic._available self' = last_update_success coordinator ∧
  EyeOnWaterStatistic._state self' =
    if last_update_success coordinator then Some (meter_reading meter)
    else EyeOnWaterStatistic._state self.
Proof.
  rewrite _state_update_cases.
  destruct (last_update_success coordinator); [|done].
  destruct (last_historical_data meter); [done|].
  destruct (last _); [|done].
  destruct (get_statistic_metadata meter) as [?|metadata]; [done|].
  by destruct (recorder metadata _).
Qed.

(** X13.  After any sequence of updates, the statistic entity is
    available exactly when the most recent cycle succeeded.  If it
    succeeded, the entity shows the current reading of the meter, even when
    the reconciliation of that update raised; if it failed, the entity
    keeps the value, the watermark and the submissions it had. *)
Theorem availability_follows_last_cycle us u
    (s : EyeOnWaterStatistic.t * HomeAssistant) :
  let before := updates us s in
  let after := updates (us ++ [u]) s in
  EyeOnWaterStatistic.available after.1 =
    last_update_success (update_coordinator u) ∧
  (last_update_success (update_coordinator u) = true →
     EyeOnWaterStatistic.native_value after.1 =
       Some (reading (meter_reading (update_meter u)))) ∧
  (last_update_success (update_coordinator u) = false →
     EyeOnWaterStatistic.native_value after.1 =
       EyeOnWaterStatistic.native_value before.1 ∧
     EyeOnWaterStatistic._last_imported_time after.1 =
       EyeOnWaterStatistic._last_imported_time before.1 ∧
     after.2 = before.2).
Proof.
  intros before after. subst before after. rewrite updates_app. simpl.
  destruct (updates us s) as [self hass].
  pose proof (_state_update_shown (update_coordinator u) (update_recorder u)
                (update_meter u) self hass) as [Ha Hs].
  unfold EyeOnWaterStatistic.available, EyeOnWaterStatistic.native_value.
  split; [done|]. split.
  - intros Hok. rewrite Hs, Hok. done.
  - intros Hfailed. rewrite Hs, Hfailed.
    rewrite _state_update_cases, Hfailed. done.
Qed.

(** X14.  When the statistics store raises on a submission, the
    exception leaves the update with the watermark where it was; the next
    update on the same fetched data submits the same batch again, and once
    the store accepts it the watermark goes to the last point of that
    batch. *)
Theorem failed_submission_is_retried
    coordinator recorder recorder' meter self hass metadata e :
  let newer :=
    filter_newer_data (last_historical_data meter)
      (EyeOnWaterStatistic._last_imported_time self) in
  let first :=
    EyeOnWaterStatistic._state_update coordinator recorder meter
      (self, hass) in
  let second :=
    EyeOnWaterStatistic._state_update coordinator recorder' meter first.1 in
  last_update_success coordinator = true →
  newer ≠ [] →
  get_statistic_metadata meter = inr metadata →
  recorder metadata (convert_statistic_data newer) = Some e →
  recorder' metadata (convert_statistic_data newer) = None →
  first.2 = inl e ∧
  first.1.2 = submitted hass metadata newer ∧
  EyeOnWaterStatistic._last_imported_time first.1.1 =
    EyeOnWaterStatistic._last_imported_time self ∧
  second.2 = inr () ∧
  second.1.2 = submitted (submitted hass metadata newer) metadata newer ∧
  EyeOnWaterStatistic._last_imported_time second.1.1 = dt <$> last newer.
Proof.
  intros newer first second Hok Hnewer Hmeta Hraise Haccept.
  subst first second. rewrite _state_update_cases. fold newer.
  rewrite Hok, Hmeta, Hraise.
  destruct (last_historical_data meter) as [|d ds] eqn:Hfetched.
  { destruct Hnewer. subst newer.
    by destruct (EyeOnWaterStatistic._last_imported_time self). }
  destruct (last newer) as [p|] eqn:Hlast;
    [|by apply last_None in Hlast].
  simpl. rewrite _state_update_cases. simpl. rewrite Hfetched. fold newer.
  rewrite Hok, Hlast, Hmeta, Haccept. done.
Qed.

Lemma nothing_newer fetched cutoff p :
  filter_newer_data fetched (Some cutoff) = [] → p ∈ fetched →
  dt p ≤ cutoff.
Proof.
  intros Hnone Hp. destruct (decide (cutoff < dt p)) as [Hlt|]; [|lia].
  assert (p ∈ filter_newer_data fetched (Some cutoff)) as Hin
    by by apply filter_newer_data_elem_of.
  rewrite Hnone in Hin. by apply elem_of_nil in Hin.
Qed.

(** X15.  After an update that completed in a successful cycle on a
    history ordered by timestamp, no fetched point lies after the
    watermark: all of them are at or before it (with [filter_newer_data] as
    section 4.1 of the spec describes it). *)
Theorem completed_update_covers_history
    coordinator recorder meter self hass self1 hass1 :
  ordered (last_historical_data meter) →
  last_update_success coordinator = true →
  EyeOnWaterStatistic._state_update coordinator recorder meter (self, hass) =
    ((self1, hass1), inr ()) →
  ∀ p, p ∈ last_historical_data meter →
    watermark_le (Some (dt p)) (EyeOnWaterStatistic._last_imported_time self1).
Proof.
  intros Hsorted Hok. rewrite _state_update_cases, Hok.
  destruct (last_historical_data meter) as [|d ds] eqn:Hfetched; [done|].
  assert (∀ (p : DataPoint) c, dt p ≤ c → watermark_le (Some (dt p)) (Some c))
    as Hle.
  { intros p c Hpc. unfold watermark_le. simpl.
    destruct (decide (dt p = c)) as [->|]; [by left|right; lia]. }
  destruct (last _) as [q|] eqn:Hlast.
  - destruct (get_statistic_metadata meter) as [?|metadata]; [done|].
    destruct (recorder metadata _); [done|].
    intros [= <- <-] p Hp. simpl. apply Hle.
    apply (nothing_newer (d :: ds)); [|done].
    apply (nothing_newer_than_last _ _ _ Hsorted Hlast).
  - intros [= <- <-] p Hp. simpl. apply last_None in Hlast.
    destruct (EyeOnWaterStatistic._last_imported_time self) as [c|];
      [|done].
    apply Hle. by apply (nothing_newer (d :: ds)).
Qed.

(** X16.  Over any sequence of updates the watermark is either the one
    the entity started with or the timestamp of a point that was in the
    fetched history of a meter at an update of a successful cycle: it is
    never a time that was not fetched (with [filter_newer_data] as section
    4.1 of the spec describes it). *)
Theorem watermark_is_a_fetched_timestamp us
    (s : EyeOnWaterStatistic.t * HomeAssistant) :
  let w' := EyeOnWaterStatistic._last_imported_time (updates us s).1 in
  w' = EyeOnWaterStatistic._last_imported_time s.1 ∨
  ∃ u p, u ∈ us ∧ last_update_success (update_coordinator u) = true ∧
         p ∈ last_historical_data (update_meter u) ∧ w' = Some (dt p).
Proof.
  revert s. induction us as [|u l IH]; intros s; simpl; [by left|].
  destruct (IH (EyeOnWaterStatistic._state_update (update_coordinator u)
                  (update_recorder u) (update_meter u) s).1)
    as [Hsame|(u' & p & Hu' & Hok & Hp & Hw)].
  2: { right. exists u', p. split; [by right|done]. }
  rewrite Hsame. clear IH Hsame. destruct s as [self hass].
  rewrite _state_update_cases. simpl.
  destruct (last_update_success (update_coordinator u)) eqn:Hok; [|by left].
  destruct (last_historical_data (update_meter u)) as [|d ds] eqn:Hfetched;
    [by left|].
  destruct (last _) as [q|] eqn:Hlast; [|by left].
  destruct (get_statistic_metadata _) as [?|metadata]; [by left|].
  destruct (update_recorder u metadata _); [by left|].
  right. exists u, q. split; [by left|]. split; [done|].
  rewrite Hfetched. split; [|done]. by apply last_newer in Hlast as [? _].
Qed.
End LifetimeProperties.

(** ** The further properties at sample inputs *)

Lemma cycle_keeps_meter_identities_witness :
  length
    (EyeOnWaterData.read_meters (H := Sample.helper) Sample.client_b_down
       (EyeOnWaterData.tasks Outage.two_meters) 3
       (Outage.two_meters, Sample.hass)).1.1 = 2%nat.
Proof.
  destruct (cycle_keeps_meter_identities (H := Sample.helper)
              Sample.client_b_down (EyeOnWaterData.tasks Outage.two_meters) 3
              Outage.two_meters Sample.hass) as (_ & Hlength & _).
  exact Hlength.
Defined.

Lemma coordinator_never_raises_api_errors_witness :
  (EyeOnWaterData.read_meters (H := Sample.helper) Sample.client_b_down
     (EyeOnWaterData.tasks Outage.two_meters) 3
     (Outage.two_meters, Sample.hass)).2 = inl UpdateFailed ∧
  api_or_auth_error UpdateFailed = false.
Proof.
  split; [reflexivity|].
  apply (coordinator_never_raises_api_errors (H := Sample.helper)
           Sample.client_b_down Sample.accepting
           (EyeOnWaterData.tasks Outage.two_meters) 3
           (Outage.two_meters, Sample.hass)).
  right. left. reflexivity.
Defined.

Lemma other_fetch_errors_pass_through_witness :
  (EyeOnWaterData.read_meters (H := Sample.helper) Outage.client_slow
     (EyeOnWaterData.tasks Outage.two_meters) 3
     (Outage.two_meters, Sample.hass)).2 = inl TimeoutError.
Proof.
  apply (other_fetch_errors_pass_through (H := Sample.helper)
           Outage.client_slow (EyeOnWaterData.tasks Outage.two_meters)
           [EyeOnWaterData.ReadMeterInfo 0] (EyeOnWaterData.ReadMeterInfo 1)
           [EyeOnWaterData.ReadHistoricalData 0;
            EyeOnWaterData.ReadHistoricalData 1]);
    [reflexivity|by repeat constructor|reflexivity|reflexivity].
Defined.

Lemma unload_removes_the_entry_witness :
  ∃ domain,
    async_unload_entry "entry1" true
      (Some (<["entry1" := mkEntry (mkCoordinator true) Outage.two_meters]> ∅))
      = (Some domain, inr true) ∧
    entry_of "entry1" (Some domain) = None ∧
    ∀ other, other ≠ "entry1"%string →
      entry_of other (Some domain) =
      entry_of other
        (Some (<["entry1" :=
                  mkEntry (mkCoordinator true) Outage.two_meters]> ∅)).
Proof.
  apply (unload_removes_the_entry "entry1"
           (Some (<["entry1" :=
                     mkEntry (mkCoordinator true) Outage.two_meters]> ∅))).
  exists (mkEntry (mkCoordinator true) Outage.two_meters). reflexivity.
Defined.

Lemma unload_entry_edges_witness :
  async_unload_entry "entry1" true None = (None, inl KeyError).
Proof.
  destruct (unload_entry_edges "entry1" None) as (_ & Hmissing & _).
  apply Hmissing. reflexivity.
Defined.

Lemma platforms_follow_the_entry_witness :
  sensor_platform "entry1" (λ _, Some 212)
    (Some (<["entry1" := mkEntry (mkCoordinator true) Outage.two_meters]> ∅))
    = inr (sensor_async_setup_entry (λ _, Some 212) Outage.two_meters) ∧
  binary_sensor_platform "entry1"
    (Some (<["entry1" := mkEntry (mkCoordinator true) Outage.two_meters]> ∅))
    = inr (binary_sensor_async_setup_entry Outage.two_meters) ∧
  length (binary_sensor_async_setup_entry Outage.two_meters) = 14%nat.
Proof.
  destruct (platforms_follow_the_entry "entry1" (λ _, Some 212)
              (Some (<["entry1" :=
                        mkEntry (mkCoordinator true) Outage.two_meters]> ∅)))
    as [Hfound _].
  destruct (Hfound (mkEntry (mkCoordinator true) Outage.two_meters))
    as (Hsensor & Hbinary & Hcount & _).
  - reflexivity.
  - exact (conj Hsensor (conj Hbinary Hcount)).
Defined.

Lemma availability_follows_last_cycle_witness :
  EyeOnWaterStatistic.native_value
    (updates (H := Sample.helper)
       ([] ++ [mkUpdate (mkCoordinator true) Outage.rejecting
                 (Sample.meter "a" Sample.history)])
       (EyeOnWaterStatistic.__init__ (Some 212), Sample.hass)).1 =
  Some 100.
Proof.
  destruct (availability_follows_last_cycle (H := Sample.helper) []
              (mkUpdate (mkCoordinator true) Outage.rejecting
                 (Sample.meter "a" Sample.history))
              (EyeOnWaterStatistic.__init__ (Some 212), Sample.hass))
    as (_ & Hshown & _).
  apply Hshown. reflexivity.
Defined.

(** The store is down at the first update and back at the second: the
    two points after the watermark are submitted at both, and the
    watermark moves at the second. *)
Lemma failed_submission_is_retried_witness :
  let first :=
    EyeOnWaterStatistic._state_update (H := Sample.helper)
      (mkCoordinator true) Outage.rejecting
      (Sample.meter "a" Sample.history)
      (EyeOnWaterStatistic.__init__ (Some 212), Sample.hass) in
  let second :=
    EyeOnWaterStatistic._state_update (H := Sample.helper)
      (mkCoordinator true) Sample.accepting
      (Sample.meter "a" Sample.history) first.1 in
  first.2 = inl (OtherError "OperationalError") ∧
  EyeOnWaterStatistic._last_imported_time first.1.1 = Some 212 ∧
  second.2 = inr () ∧
  second.1.2 =
    Sample.imported [("a"%string, [Sample.day3_0900; Sample.day3_1800]);
                     ("a"%string, [Sample.day3_0900; Sample.day3_1800])] ∧
  EyeOnWaterStatistic._last_imported_time second.1.1 = Some 318.
Proof.
  destruct (failed_submission_is_retried (H := Sample.helper)
              (mkCoordinator true) Outage.rejecting Sample.accepting
              (Sample.meter "a" Sample.history)
              (EyeOnWaterStatistic.__init__ (Some 212)) Sample.hass
              "a"%string (OtherError "OperationalError"))
    as (Hraised & _ & Hkept & Hreturned & Hcalls & Hmoved);
    [reflexivity|discriminate|reflexivity|reflexivity|reflexivity|].
  exact (conj Hraised (conj Hkept (conj Hreturned (conj Hcalls Hmoved)))).
Defined.

Lemma completed_update_covers_history_witness :
  watermark_le (Some (dt Sample.day1_0900)) (Some 318).
Proof.
  apply (completed_update_covers_history (H := Sample.helper)
           (mkCoordinator true) Sample.accepting
           (Sample.meter "a" Sample.history)
           (EyeOnWaterStatistic.__init__ (Some 212)) Sample.hass
           (EyeOnWaterStatistic.mk (Some 318) (Some (mkDataPoint 0 100)) true
              [Sample.day3_0900; Sample.day3_1800])
           (Sample.imported
              [("a"%string, [Sample.day3_0900; Sample.day3_1800])])).
  - unfold ordered, Sample.history. simpl.
    repeat (constructor; simpl; try lia).
  - reflexivity.
  - reflexivity.
  - left.
Defined.
